(** * Country Financial Insights Agent: the aggregation core

    A shallow embedding of [tools/currency_tool.py], [tools/stock_tool.py],
    [tools/maps_tool.py] and of [build_country_financial_profile] in
    [agent.py], followed by the properties of the specification that concern
    them.

    Modelling choices.
    - A Python [str] that UTF-8 can encode is a [string] holding its UTF-8
      text: a character of the text is a byte that starts a sequence together
      with the continuation bytes that follow it, so [len] and slicing count
      those.  Case mapping and whitespace are those of the ASCII range; bytes
      above 127 are neither whitespace nor cased.  Percent-encoding works on
      the bytes, as [urllib.parse.quote] does once it has encoded its
      argument.
    - A Python [str] may also hold a code point of the surrogate range
      standing alone, which UTF-8 refuses to encode.  The type [str] adds
      these to the texts, and the one operation of the program that encodes
      its argument with no handler around it,
      [get_google_maps_link_for_address], takes a [str].  The other
      operations trim, compare and interpolate their argument and send it out
      inside a [try] block only: they take a [string], in which a surrogate
      would appear as the three bytes [unicode.render] writes for it.
    - A Python [float] is a binary64 number of [PrimFloat].
    - A JSON document, and every dictionary the program builds, is a [pyval];
      a [dict] is an association list in insertion order.
    - What the program reads from outside (the process environment, the HTTP
      answers, the market-data answers, and the interpreter's parser of
      float literals) is a field of [World].  The answers are a function of
      the request: two calls compared in a theorem are compared in one world.
    - Code that may raise runs in the monad [M]: an outcome (returned or
      raised) together with the trace of the calls that were made. *)

From Stdlib Require Import ZArith String Ascii List Bool.
From Stdlib Require Import PrimFloat SpecFloat FloatOps DecimalString.
Import ListNotations.

Open Scope Z_scope.
Open Scope list_scope.
Open Scope string_scope.

(** ** Python strings *)

Module pystr.

(** [str.isspace] on the ASCII range: TAB..CR, FS..US and the space. *)
Definition is_space (c : ascii) : bool :=
  let n := N_of_ascii c in
  (((9 <=? n) && (n <=? 13)) || ((28 <=? n) && (n <=? 32)))%N.

Fixpoint lstrip (s : string) : string :=
  match s with
  | EmptyString => EmptyString
  | String c r => if is_space c then lstrip r else s
  end.

Fixpoint rstrip (s : string) : string :=
  match s with
  | EmptyString => EmptyString
  | String c r =>
      match rstrip r with
      | EmptyString => if is_space c then EmptyString else String c EmptyString
      | r' => String c r'
      end
  end.

(** [s.strip()] *)
Definition strip (s : string) : string := rstrip (lstrip s).

Definition lower_char (c : ascii) : ascii :=
  let n := N_of_ascii c in
  if ((65 <=? n) && (n <=? 90))%N then ascii_of_N (n + 32) else c.

Definition upper_char (c : ascii) : ascii :=
  let n := N_of_ascii c in
  if ((97 <=? n) && (n <=? 122))%N then ascii_of_N (n - 32) else c.

Fixpoint map_chars (f : ascii -> ascii) (s : string) : string :=
  match s with
  | EmptyString => EmptyString
  | String c r => String (f c) (map_chars f r)
  end.

(** [s.lower()] and [s.upper()] *)
Definition lower (s : string) : string := map_chars lower_char s.
Definition upper (s : string) : string := map_chars upper_char s.

(** A byte that continues a UTF-8 sequence: [10xxxxxx]. *)
Definition is_continuation (c : ascii) : bool :=
  let n := N_of_ascii c in ((128 <=? n) && (n <=? 191))%N.

(** [len(s)]: the characters of the text, one for each byte that starts a
    sequence. *)
Fixpoint len (s : string) : nat :=
  match s with
  | EmptyString => O
  | String c r => if is_continuation c then len r else S (len r)
  end.

(** [s[:n]]: the first [n] characters, each with its continuation bytes. *)
Fixpoint take (n : nat) (s : string) : string :=
  match s with
  | EmptyString => EmptyString
  | String c r =>
      if is_continuation c then String c (take n r)
      else match n with
           | O => EmptyString
           | S n' => String c (take n' r)
           end
  end.

(** [sep.join(parts)] *)
Fixpoint join (sep : string) (parts : list string) : string :=
  match parts with
  | [] => ""
  | [p] => p
  | p :: rest => p ++ sep ++ join sep rest
  end.

(** [sub in s] for two strings *)
Definition contains (sub s : string) : bool :=
  match index 0 sub s with Some _ => true | None => false end.

(** [str(n)] for an [int] *)
Definition of_int (z : Z) : string := NilZero.string_of_int (Z.to_int z).

Definition mem (s : string) (l : list string) : bool :=
  existsb (String.eqb s) l.

End pystr.

(** ** Strings with lone surrogates *)

(** A [str]: a text, or a text followed by a lone surrogate and the rest of
    the string.  The surrogate is given by its offset [k] from U+D800, taken
    modulo 2048: the code points U+D800 to U+DFFF. *)
Inductive str : Type :=
| Text (utf8 : string)
| Lone (before : string) (surrogate : N) (rest : str).

Coercion Text : string >-> str.

Module unicode.

Definition code_point (k : N) : N := (55296 + k mod 2048)%N.

(** A surrogate is no whitespace: trimming stops at it. *)
Definition lstrip (s : str) : str :=
  match s with
  | Text t => Text (pystr.lstrip t)
  | Lone before k rest => Lone (pystr.lstrip before) k rest
  end.

Fixpoint rstrip (s : str) : str :=
  match s with
  | Text t => Text (pystr.rstrip t)
  | Lone before k rest => Lone before k (rstrip rest)
  end.

(** [s.strip()] *)
Definition strip (s : str) : str := rstrip (lstrip s).

(** The three bytes [1110xxxx 10xxxxxx 10xxxxxx] of a code point of the
    surrogate range, which is how a trace writes it down. *)
Definition surrogate_bytes (k : N) : string :=
  let n := code_point k in
  String (ascii_of_N (224 + n / 4096))
    (String (ascii_of_N (128 + (n / 64) mod 64))
       (String (ascii_of_N (128 + n mod 64)) "")).

Fixpoint render (s : str) : string :=
  match s with
  | Text t => t
  | Lone before k rest => before ++ surrogate_bytes k ++ render rest
  end.

Definition hex_digit (n : N) : ascii :=
  if (n <? 10)%N then ascii_of_N (48 + n) else ascii_of_N (87 + n).

(** The escape [\udxxx] with which [repr] writes a surrogate. *)
Definition escape (k : N) : string :=
  let n := code_point k in
  String "\" (String "u"
    (String (hex_digit (n / 4096))
       (String (hex_digit ((n / 256) mod 16))
          (String (hex_digit ((n / 16) mod 16))
             (String (hex_digit (n mod 16)) ""))))).

(** The surrogates that follow one another at the head of a string. *)
Fixpoint run (s : str) : nat :=
  match s with
  | Lone EmptyString _ rest => S (run rest)
  | _ => O
  end.

End unicode.

(** ** urllib.parse *)

Module urllib_parse.

Definition is_alnum (c : ascii) : bool :=
  let n := N_of_ascii c in
  (((48 <=? n) && (n <=? 57)) || ((65 <=? n) && (n <=? 90))
   || ((97 <=? n) && (n <=? 122)))%N.

(** The characters [quote] never encodes: letters, digits and [_.-~]. *)
Definition always_safe (c : ascii) : bool :=
  is_alnum c || pystr.mem (String c "") ["_"; "."; "-"; "~"].

Definition hex_digit (n : N) : ascii :=
  if (n <? 10)%N then ascii_of_N (48 + n) else ascii_of_N (55 + n).

(** ["%{:02X}".format(byte)] *)
Definition percent (c : ascii) : string :=
  let n := N_of_ascii c in
  String "%" (String (hex_digit (n / 16)) (String (hex_digit (n mod 16)) "")).

Fixpoint quote (s : string) (safe : string) : string :=
  match s with
  | EmptyString => EmptyString
  | String c r =>
      (if always_safe c || pystr.contains (String c "") safe
       then String c "" else percent c) ++ quote r safe
  end.

(** [s.replace(' ', '+')] *)
Fixpoint replace_space_plus (s : string) : string :=
  match s with
  | EmptyString => EmptyString
  | String c r =>
      String (if Ascii.eqb c " " then "+"%char else c) (replace_space_plus r)
  end.

(** [quote_plus(string)] with the default [safe=''] *)
Definition quote_plus (s : string) : string :=
  if negb (pystr.contains " " s) then quote s ""
  else replace_space_plus (quote s " ").

End urllib_parse.

(** ** Python values *)

#[warnings="-register-all"]
Inductive pyval : Type :=
| PNone
| PBool (b : bool)
| PInt (z : Z)
| PFloat (f : float)
| PStr (s : string)
| PList (l : list pyval)
| PDict (d : list (string * pyval)).

(** A dictionary with string keys, in insertion order. *)
Definition dict : Type := list (string * pyval).

Module pydict.

Section Assoc.
Context {A : Type}.

(** [d.get(k)] *)
Fixpoint get (k : string) (d : list (string * A)) : option A :=
  match d with
  | [] => None
  | (k', v) :: r => if String.eqb k k' then Some v else get k r
  end.

(** [k in d] *)
Definition has (k : string) (d : list (string * A)) : bool :=
  match get k d with Some _ => true | None => false end.

(** [d[k] = v]: the value is replaced where the key stands, a new key goes
    to the end. *)
Fixpoint set (k : string) (v : A) (d : list (string * A)) : list (string * A) :=
  match d with
  | [] => [(k, v)]
  | (k', v') :: r =>
      if String.eqb k k' then (k', v) :: r else (k', v') :: set k v r
  end.

Definition keys (d : list (string * A)) : list string := map fst d.

End Assoc.

End pydict.

(** [type(v).__name__] *)
Definition type_name (v : pyval) : string :=
  match v with
  | PNone => "NoneType"
  | PBool _ => "bool"
  | PInt _ => "int"
  | PFloat _ => "float"
  | PStr _ => "str"
  | PList _ => "list"
  | PDict _ => "dict"
  end.

(** [bool(v)] *)
Definition truthy (v : pyval) : bool :=
  match v with
  | PNone => false
  | PBool b => b
  | PInt z => negb (z =? 0)%Z
  | PFloat f => negb (PrimFloat.eqb f 0%float)
  | PStr s => negb (String.eqb s "")
  | PList l => match l with [] => false | _ => true end
  | PDict d => match d with [] => false | _ => true end
  end.

(** ** Exceptions, traces and the monad of the program *)

Inductive exc_class : Type :=
| AttributeError
| KeyError
| IndexError
| TypeError
| ValueError
| OverflowError
| StopIteration
| UnicodeEncodeError
| OtherException (name : string).

(** An exception object: its class and [str(exc)].  The messages of the
    interpreter's own exceptions are those of CPython 3.11. *)
Record exn : Type := Exn { exc_type : exc_class; exc_str : string }.

Definition exc_class_eqb (a b : exc_class) : bool :=
  match a, b with
  | AttributeError, AttributeError
  | KeyError, KeyError
  | IndexError, IndexError
  | TypeError, TypeError
  | ValueError, ValueError
  | OverflowError, OverflowError
  | StopIteration, StopIteration
  | UnicodeEncodeError, UnicodeEncodeError => true
  | OtherException n, OtherException m => String.eqb n m
  | _, _ => false
  end.

(** [issubclass(a, b)] among the classes above: UnicodeEncodeError derives
    from ValueError. *)
Definition issubclass (a b : exc_class) : bool :=
  match a, b with
  | UnicodeEncodeError, ValueError => true
  | _, _ => exc_class_eqb a b
  end.

(** [isinstance(e, classes)], for the classes the program names in an
    [except] clause. *)
Definition isinstance (e : exn) (classes : list exc_class) : bool :=
  existsb (issubclass (exc_type e)) classes.

(** What a run leaves behind: the requests it sends to the providers, and a
    mark for each entry into one of the four component operations.  The
    program logs nothing itself; the marks are what lets a property say that
    an operation was, or was not, invoked. *)
Inductive event : Type :=
| Enter (operation : string) (argument : string)
| HttpGet (url : string) (params : list (string * string))
| YfHistory (symbol : string) (period : string).

Inductive outcome (A : Type) : Type :=
| Returned (a : A)
| Raised (e : exn).
Arguments Returned {A} a.
Arguments Raised {A} e.

Definition M (A : Type) : Type := outcome A * list event.

Definition ret {A} (a : A) : M A := (Returned a, []).
Definition raise {A} (e : exn) : M A := (Raised e, []).
Definition emit (ev : event) : M unit := (Returned tt, [ev]).
Definition lift {A} (o : outcome A) : M A := (o, []).

Definition bind {A B} (m : M A) (k : A -> M B) : M B :=
  match m with
  | (Returned a, t) => let (r, t') := k a in (r, (t ++ t')%list)
  | (Raised e, t) => (Raised e, t)
  end.

(** [try: body  except Exception as exc: handler exc] *)
Definition try_except {A} (body : M A) (handler : exn -> M A) : M A :=
  match body with
  | (Returned a, t) => (Returned a, t)
  | (Raised e, t) => let (r, t') := handler e in (r, (t ++ t')%list)
  end.

(** [try: body  except classes: handler] *)
Definition try_except_of {A} (classes : list exc_class)
    (body : M A) (handler : M A) : M A :=
  match body with
  | (Returned a, t) => (Returned a, t)
  | (Raised e, t) =>
      if isinstance e classes
      then let (r, t') := handler in (r, (t ++ t')%list)
      else (Raised e, t)
  end.

Definition result_of {A} (m : M A) : outcome A := fst m.
Definition trace_of {A} (m : M A) : list event := snd m.

Declare Scope py_scope.
Delimit Scope py_scope with py.
Notation "x <- m ;; k" := (bind m (fun x => k))
  (at level 100, m at next level, right associativity) : py_scope.
Notation "' pat <- m ;; k" := (bind m (fun x => match x with pat => k end))
  (at level 100, pat pattern, m at next level, right associativity) : py_scope.
Notation "m ;;; k" := (bind m (fun _ => k))
  (at level 100, right associativity) : py_scope.
Open Scope py_scope.

(** ** Operations of the interpreter the program uses *)

Module py.

Definition attribute_error {A} (v : pyval) (attr : string) : M A :=
  raise (Exn AttributeError
           ("'" ++ type_name v ++ "' object has no attribute '" ++ attr ++ "'")).

(** [v.get(key, default)]: a method of [dict] alone. *)
Definition get (v : pyval) (key : string) (default : pyval) : M pyval :=
  match v with
  | PDict d =>
      ret (match pydict.get key d with Some x => x | None => default end)
  | _ => attribute_error v "get"
  end.

(** [v[0]] *)
Definition getitem_0 (v : pyval) : M pyval :=
  match v with
  | PList (x :: _) => ret x
  | PList [] => raise (Exn IndexError "list index out of range")
  | PStr (String c _) => ret (PStr (String c ""))
  | PStr EmptyString => raise (Exn IndexError "string index out of range")
  | PDict _ => raise (Exn KeyError "0")
  | _ => raise (Exn TypeError ("'" ++ type_name v ++ "' object is not subscriptable"))
  end.

(** [v[key]] for a [str] key *)
Definition getitem_str (v : pyval) (key : string) : M pyval :=
  match v with
  | PDict d =>
      match pydict.get key d with
      | Some x => ret x
      | None => raise (Exn KeyError ("'" ++ key ++ "'"))
      end
  | PList _ =>
      raise (Exn TypeError "list indices must be integers or slices, not str")
  | PStr _ => raise (Exn TypeError "string indices must be integers, not 'str'")
  | _ => raise (Exn TypeError ("'" ++ type_name v ++ "' object is not subscriptable"))
  end.

Definition is_str (key : string) (v : pyval) : bool :=
  match v with PStr s => String.eqb key s | _ => false end.

(** [key in v] for a [str] key *)
Definition contains_str (key : string) (v : pyval) : M bool :=
  match v with
  | PDict d => ret (pydict.has key d)
  | PList l => ret (existsb (is_str key) l)
  | PStr s => ret (pystr.contains key s)
  | _ => raise (Exn TypeError
                  ("argument of type '" ++ type_name v ++ "' is not iterable"))
  end.

(** [next(iter(v.items()))] *)
Definition first_item (v : pyval) : M (string * pyval) :=
  match v with
  | PDict (kv :: _) => ret kv
  | PDict [] => raise (Exn StopIteration "")
  | _ => attribute_error v "items"
  end.

(** [float(z)] for an [int]: the nearest binary64 number, ties to even;
    [None] where CPython raises OverflowError. *)
Definition float_of_Z (z : Z) : option float :=
  match binary_normalize prec emax z 0 false with
  | S754_infinity _ => None
  | sf => Some (SF2Prim sf)
  end.

Section Float.
(** [float(s)] for a [str]: the number it spells, [None] where CPython
    raises ValueError. *)
Variable float_of_str : string -> option float.

(** [float(v)] *)
Definition float (v : pyval) : M PrimFloat.float :=
  match v with
  | PFloat f => ret f
  | PBool b => ret (if b then 1%float else 0%float)
  | PInt z =>
      match float_of_Z z with
      | Some f => ret f
      | None => raise (Exn OverflowError "int too large to convert to float")
      end
  | PStr s =>
      match float_of_str s with
      | Some f => ret f
      | None => raise (Exn ValueError
                         ("could not convert string to float: '" ++ s ++ "'"))
      end
  | _ => raise (Exn TypeError
                  ("float() argument must be a string or a real number, not '"
                   ++ type_name v ++ "'"))
  end.
End Float.

(** [s.encode('utf-8')], strict: a text is its bytes; at the first surrogate
    the codec raises, naming the position of the surrogate in the string, or
    the positions of the first and of the last one where several follow one
    another. *)
Definition encode_utf8 (s : str) : M string :=
  match s with
  | Text t => ret t
  | Lone before k rest =>
      let first := Z.of_nat (pystr.len before) in
      raise (Exn UnicodeEncodeError
               ("'utf-8' codec can't encode "
                ++ match unicode.run rest with
                   | O =>
                       "character '" ++ unicode.escape k ++ "' in position "
                       ++ pystr.of_int first
                   | S more =>
                       "characters in position " ++ pystr.of_int first ++ "-"
                       ++ pystr.of_int (first + Z.of_nat (S more))
                   end
                ++ ": surrogates not allowed"))
  end.

(** [urllib.parse.quote_plus(s)] for a [str]: [quote] encodes the string
    before it percent-encodes the bytes. *)
Definition quote_plus (s : str) : M string :=
  bytes <- encode_utf8 s ;;
  ret (urllib_parse.quote_plus bytes).

End py.

(** ** The world outside the program *)

(** A response of [requests]: its [status_code], its [text] and what
    [resp.json()] gives (a document, or the exception it raises). *)
Record Response : Type := {
  status_code : Z;
  text : string;
  json : outcome pyval
}.

(** The answer to [requests.get]: the call raises, or a response comes back. *)
Inductive http_result : Type :=
| RequestRaises (e : exn)
| Responds (resp : Response).

(** What the program observes of the frame [Ticker.history] returns:
    [hist.empty] and the value of [float(hist["Close"].iloc[-1])]. *)
Record DataFrame : Type := {
  empty : bool;
  last_close : outcome float
}.

(** The answer to [yf.Ticker(symbol).history(period=...)]. *)
Inductive history_result : Type :=
| HistoryRaises (e : exn)
| HistoryNone
| History (hist : DataFrame).

Record World : Type := {
  getenv : string -> option string;
  requests_get : string -> list (string * string) -> http_result;
  yf_history : string -> string -> history_result;
  float_of_str : string -> option float
}.

(** ** tools/currency_tool.py *)

Module currency_tool.

Record currency : Type := { code : string; name : string }.

Definition COUNTRY_CURRENCY_MAP : list (string * currency) :=
  [ ("india", {| code := "INR"; name := "Indian Rupee" |});
    ("united states", {| code := "USD"; name := "United States Dollar" |});
    ("united states of america",
       {| code := "USD"; name := "United States Dollar" |});
    ("usa", {| code := "USD"; name := "United States Dollar" |});
    ("japan", {| code := "JPY"; name := "Japanese Yen" |});
    ("united kingdom", {| code := "GBP"; name := "Pound Sterling" |});
    ("uk", {| code := "GBP"; name := "Pound Sterling" |});
    ("great britain", {| code := "GBP"; name := "Pound Sterling" |});
    ("south korea", {| code := "KRW"; name := "South Korean Won" |});
    ("republic of korea", {| code := "KRW"; name := "South Korean Won" |});
    ("korea, republic of", {| code := "KRW"; name := "South Korean Won" |});
    ("china", {| code := "CNY"; name := "Chinese Yuan Renminbi" |});
    ("people's republic of china",
       {| code := "CNY"; name := "Chinese Yuan Renminbi" |}) ].

Definition _normalize_country (country : string) : string :=
  pystr.lower (pystr.strip country).

Definition restcountries_url (country : string) : string :=
  "https://restcountries.com/v3.1/name/" ++ pystr.strip country.

Definition restcountries_params : list (string * string) :=
  [("fullText", "false"); ("fields", "currencies,name")].

Definition currencyapi_url : string := "https://api.currencyapi.com/v3/latest".

Definition target_currencies : list string := ["USD"; "INR"; "GBP"; "EUR"].

Definition currencyapi_params (api_key base : string) : list (string * string) :=
  [("apikey", api_key); ("base_currency", base);
   ("currencies", pystr.join "," target_currencies)].

Section WithWorld.
Variable w : World.

(** [requests.get(url, params=params, timeout=10)] *)
Definition requests_get_ (url : string) (params : list (string * string))
  : M Response :=
  emit (HttpGet url params) ;;;
  match requests_get w url params with
  | RequestRaises e => raise e
  | Responds resp => ret resp
  end.

Definition get_currency_for_country (country : string) : M dict :=
  emit (Enter "get_currency_for_country" country) ;;;
  let country_norm := _normalize_country country in
  match pydict.get country_norm COUNTRY_CURRENCY_MAP with
  | Some mapping =>
      ret [ ("country", PStr (pystr.strip country));
            ("currency_name", PStr (name mapping));
            ("currency_code", PStr (code mapping));
            ("source", PStr "local_mapping") ]
  | None =>
      try_except
        (resp <- requests_get_ (restcountries_url country) restcountries_params ;;
         if negb (status_code resp =? 200)%Z then
           ret [ ("country", PStr (pystr.strip country));
                 ("error",
                  PStr ("Failed to resolve currency via RestCountries (status "
                        ++ pystr.of_int (status_code resp) ++ ").")) ]
         else
           data <- lift (json resp) ;;
           if negb (truthy data) then
             ret [ ("country", PStr (pystr.strip country));
                   ("error", PStr "No country data returned from RestCountries.") ]
           else
             first <- py.getitem_0 data ;;
             found <- py.get first "currencies" PNone ;;
             let currencies := if truthy found then found else PDict [] in
             if negb (truthy currencies) then
               ret [ ("country", PStr (pystr.strip country));
                     ("error",
                      PStr "No currency information available for this country.") ]
             else
               '(code, info) <- py.first_item currencies ;;
               currency_name <- py.get info "name" (PStr "") ;;
               ret [ ("country", PStr (pystr.strip country));
                     ("currency_name", currency_name);
                     ("currency_code", PStr code);
                     ("source", PStr "restcountries") ])
        (fun exc =>
           ret [ ("country", PStr (pystr.strip country));
                 ("error",
                  PStr ("Exception while resolving currency: " ++ exc_str exc)) ])
  end.

(** The body of [for code in target_currencies: ...], from the code at hand
    to the end of the list; [rates] is the dictionary filled so far. *)
Fixpoint collect_rates (data : pyval) (codes : list string) (rates : dict)
  : M dict :=
  match codes with
  | [] => ret rates
  | code :: rest =>
      present <- py.contains_str code data ;;
      if (present : bool) then
        rates' <- try_except_of [TypeError; ValueError]
                    (entry <- py.getitem_str data code ;;
                     value <- py.get entry "value" (PFloat 0%float) ;;
                     rate <- py.float (float_of_str w) value ;;
                     ret (pydict.set code (PFloat rate) rates))
                    (ret rates) ;;
        collect_rates data rest rates'
      else collect_rates data rest rates
  end.

Definition get_exchange_rates_for_currency (currency_code : string) : M dict :=
  emit (Enter "get_exchange_rates_for_currency" currency_code) ;;;
  let base := pystr.upper (pystr.strip currency_code) in
  let api_key := getenv w "CURRENCY_API_KEY" in
  match api_key with
  | None | Some EmptyString =>
      ret [ ("base_currency", PStr base);
            ("error",
             PStr "CURRENCY_API_KEY is not set. Sign up at https://currencyapi.com/ and add it to your .env file.") ]
  | Some api_key =>
      try_except
        (resp <- requests_get_ currencyapi_url (currencyapi_params api_key base) ;;
         if negb (status_code resp =? 200)%Z then
           ret [ ("base_currency", PStr base);
                 ("error",
                  PStr ("CurrencyAPI request failed with status "
                        ++ pystr.of_int (status_code resp) ++ ": "
                        ++ pystr.take 200 (text resp))) ]
         else
           payload <- lift (json resp) ;;
           data <- py.get payload "data" (PDict []) ;;
           rates <- collect_rates data target_currencies [] ;;
           match rates with
           | [] =>
               ret [ ("base_currency", PStr base);
                     ("error", PStr "No valid rates returned by CurrencyAPI.") ]
           | _ =>
               ret [ ("base_currency", PStr base);
                     ("rates", PDict rates);
                     ("provider", PStr "currencyapi.com") ]
           end)
        (fun exc =>
           ret [ ("base_currency", PStr base);
                 ("error",
                  PStr ("Exception while calling CurrencyAPI: " ++ exc_str exc)) ])
  end.

End WithWorld.

End currency_tool.

(** ** tools/stock_tool.py *)

Module StockIndex.
Record t : Type := mk { symbol : string; name : string }.
End StockIndex.

Module StockExchange.
Record t : Type := mk {
  name : string;
  city : string;
  country : string;
  headquarters_address : string;
  indices : list StockIndex.t
}.
End StockExchange.

Module stock_tool.

Definition COUNTRY_STOCK_PROFILE : list (string * list StockExchange.t) :=
  [ ("india",
     [ StockExchange.mk "National Stock Exchange of India (NSE)" "Mumbai" "India"
         "Exchange Plaza, Bandra Kurla Complex, Bandra East, Mumbai, Maharashtra 400051, India"
         [ StockIndex.mk "^NSEI" "Nifty 50"; StockIndex.mk "^CNX100" "Nifty 100" ];
       StockExchange.mk "Bombay Stock Exchange (BSE)" "Mumbai" "India"
         "Phiroze Jeejeebhoy Towers, Dalal Street, Fort, Mumbai, Maharashtra 400001, India"
         [ StockIndex.mk "^BSESN" "BSE Sensex" ] ]);
    ("united states",
     [ StockExchange.mk "New York Stock Exchange (NYSE)" "New York" "United States"
         "11 Wall St, New York, NY 10005, USA"
         [ StockIndex.mk "^GSPC" "S&P 500"; StockIndex.mk "^DJI" "Dow Jones Industrial Average" ];
       StockExchange.mk "NASDAQ Stock Market" "New York" "United States"
         "151 W 42nd St, New York, NY 10036, USA"
         [ StockIndex.mk "^IXIC" "NASDAQ Composite" ] ]);
    ("usa", []);
    ("united states of america", []);
    ("japan",
     [ StockExchange.mk "Tokyo Stock Exchange (TSE)" "Tokyo" "Japan"
         "2-1 Nihonbashi Kabutocho, Chuo City, Tokyo 103-8224, Japan"
         [ StockIndex.mk "^N225" "Nikkei 225"; StockIndex.mk "^TOPX" "TOPIX" ] ]);
    ("united kingdom",
     [ StockExchange.mk "London Stock Exchange (LSE)" "London" "United Kingdom"
         "10 Paternoster Square, London EC4M 7LS, United Kingdom"
         [ StockIndex.mk "^FTSE" "FTSE 100"; StockIndex.mk "^FTMC" "FTSE 250" ] ]);
    ("uk", []);
    ("south korea",
     [ StockExchange.mk "Korea Exchange (KRX) - Stock Market Division" "Seoul" "South Korea"
         "76 Yeouinaru-ro, Yeongdeungpo-gu, Seoul, South Korea"
         [ StockIndex.mk "^KS11" "KOSPI"; StockIndex.mk "^KQ11" "KOSDAQ" ] ]);
    ("china",
     [ StockExchange.mk "Shanghai Stock Exchange (SSE)" "Shanghai" "China"
         "528 Pudong South Road, Pudong, Shanghai, China"
         [ StockIndex.mk "000001.SS" "SSE Composite Index" ];
       StockExchange.mk "Shenzhen Stock Exchange (SZSE)" "Shenzhen" "China"
         "2012 Shennan Blvd, Futian District, Shenzhen, Guangdong, China"
         [ StockIndex.mk "399001.SZ" "SZSE Component Index" ] ]) ].

Definition _normalize_country (country : string) : string :=
  pystr.lower (pystr.strip country).

Definition _resolve_profile_key (country : string) : string :=
  let norm := _normalize_country country in
  if match pydict.get norm COUNTRY_STOCK_PROFILE with
     | Some (_ :: _) => true
     | _ => false
     end
  then norm
  else if pystr.mem norm ["usa"; "united states of america"]
  then "united states"
  else if pystr.mem norm ["uk"; "great britain"; "england"]
  then "united kingdom"
  else norm.

(** [asdict(idx)] and [asdict(ex)] *)
Definition asdict_index (idx : StockIndex.t) : dict :=
  [ ("symbol", PStr (StockIndex.symbol idx));
    ("name", PStr (StockIndex.name idx)) ].

Definition asdict (ex : StockExchange.t) : dict :=
  [ ("name", PStr (StockExchange.name ex));
    ("city", PStr (StockExchange.city ex));
    ("country", PStr (StockExchange.country ex));
    ("headquarters_address", PStr (StockExchange.headquarters_address ex));
    ("indices", PList (map (fun i => PDict (asdict_index i))
                           (StockExchange.indices ex))) ].

Section WithWorld.
Variable w : World.

(** The price as a value: a [float], or [None]. *)
Definition _fetch_latest_price (symbol : string) : M pyval :=
  try_except
    (emit (YfHistory symbol "1d") ;;;
     match yf_history w symbol "1d" with
     | HistoryRaises e => raise e
     | HistoryNone => ret PNone
     | History hist =>
         if empty hist then ret PNone
         else close <- lift (last_close hist) ;; ret (PFloat close)
     end)
    (fun _ => ret PNone).

(** [for idx in ex.indices: ... indices_with_prices.append({...})] *)
Fixpoint indices_with_prices (indices : list StockIndex.t) : M (list pyval) :=
  match indices with
  | [] => ret []
  | idx :: rest =>
      price <- _fetch_latest_price (StockIndex.symbol idx) ;;
      more <- indices_with_prices rest ;;
      ret (PDict [ ("symbol", PStr (StockIndex.symbol idx));
                   ("name", PStr (StockIndex.name idx));
                   ("last_price", price) ] :: more)
  end.

(** [for ex in exchanges: ... result_exchanges.append(ex_dict)] *)
Fixpoint result_exchanges (exchanges : list StockExchange.t) : M (list pyval) :=
  match exchanges with
  | [] => ret []
  | ex :: rest =>
      priced <- indices_with_prices (StockExchange.indices ex) ;;
      let ex_dict := pydict.set "indices" (PList priced) (asdict ex) in
      more <- result_exchanges rest ;;
      ret (PDict ex_dict :: more)
  end.

Definition get_country_stock_profile (country : string) : M dict :=
  emit (Enter "get_country_stock_profile" country) ;;;
  let country_clean := pystr.strip country in
  let key := _resolve_profile_key country in
  let exchanges :=
    match pydict.get key COUNTRY_STOCK_PROFILE with
    | Some l => l
    | None => []
    end in
  match exchanges with
  | [] =>
      ret [ ("country", PStr country_clean);
            ("exchanges", PList []);
            ("error",
             PStr "No stock exchange profile configured for this country.") ]
  | _ =>
      listed <- result_exchanges exchanges ;;
      ret [ ("country", PStr country_clean);
            ("exchanges", PList listed) ]
  end.

End WithWorld.

End stock_tool.

(** ** tools/maps_tool.py *)

Module maps_tool.

Definition get_google_maps_link_for_address (address : str) : M string :=
  emit (Enter "get_google_maps_link_for_address" (unicode.render address)) ;;;
  query <- py.quote_plus (unicode.strip address) ;;
  ret ("https://www.google.com/maps/search/?api=1&query=" ++ query).

End maps_tool.

(** ** agent.py *)

(** Which of the optional packages could be imported: where the import
    fails the module binds the class name to [None]. *)
Record Installed : Type := {
  langchain_google_genai : bool;
  langchain_openai : bool
}.

(** A chat model, as the arguments its constructor was called with. *)
Inductive chat_model : Type :=
| ChatGoogleGenerativeAI (model api_key : string) (temperature : float)
    (convert_system_message_to_human : bool)
| ChatOpenAI (model api_key base_url : string) (temperature : float).

(** The float [0.2]. *)
#[warnings="-inexact-float"]
Definition temperature_0_2 : float := 0.2%float.

Module agent.

Section WithWorld.
Variable w : World.

(** A call [f(v)] of an operation that starts with [v.strip()]: on a value
    that is no [str] the call raises AttributeError at once. *)
Definition call_with_str {A} (f : string -> M A) (v : pyval) : M A :=
  match v with
  | PStr s => f s
  | _ => py.attribute_error v "strip"
  end.

Definition build_country_financial_profile (country : string) : M dict :=
  let country := pystr.strip country in
  currency_info <- currency_tool.get_currency_for_country w country ;;
  fx_rates <-
    match pydict.get "currency_code" currency_info with
    | Some currency_code =>
        call_with_str (currency_tool.get_exchange_rates_for_currency w)
          currency_code
    | None =>
        ret [ ("error",
               PStr "Could not determine currency code for this country; FX rates unavailable.") ]
    end ;;
  stock_profile <- stock_tool.get_country_stock_profile w country ;;
  let exchanges :=
    match pydict.get "exchanges" stock_profile with
    | Some v => if truthy v then v else PList []
    | None => PList []
    end in
  '(main_hq_address, maps_link) <-
    (if truthy exchanges then
       main_exchange <- py.getitem_0 exchanges ;;
       main_hq_address <- py.get main_exchange "headquarters_address" PNone ;;
       if truthy main_hq_address then
         link <- call_with_str
                   (fun address : string =>
                      maps_tool.get_google_maps_link_for_address address)
                   main_hq_address ;;
         ret (main_hq_address, PStr link)
       else ret (main_hq_address, PNone)
     else ret (PNone, PNone)) ;;
  ret [ ("country", PStr country);
        ("currency", PDict currency_info);
        ("exchange_rates", PDict fx_rates);
        ("stocks", PDict stock_profile);
        ("main_exchange_hq_address", main_hq_address);
        ("google_maps_link", maps_link) ].

(** [os.getenv(name, default)]: the default stands for an unset variable
    only; a variable set to the empty string gives the empty string. *)
Definition getenv_or (name default : string) : string :=
  match getenv w name with
  | Some value => value
  | None => default
  end.

Variable installed : Installed.

Definition _get_llm (provider : option string) : M chat_model :=
  let provider :=
    match provider with
    | Some p =>
        if truthy (PStr p) then p
        else pystr.lower (getenv_or "LLM_PROVIDER" "gemini")
    | None => pystr.lower (getenv_or "LLM_PROVIDER" "gemini")
    end in
  if String.eqb provider "gemini" then
    if negb (langchain_google_genai installed) then
      raise (Exn (OtherException "RuntimeError")
               "langchain-google-genai is not installed.")
    else
      match getenv w "GOOGLE_API_KEY" with
      | None | Some EmptyString =>
          raise (Exn ValueError "GOOGLE_API_KEY is not set; cannot use Gemini.")
      | Some api_key =>
          let model_name := getenv_or "GEMINI_MODEL_NAME" "gemini-2.0-flash" in
          ret (ChatGoogleGenerativeAI model_name api_key temperature_0_2 true)
      end
  else if negb (langchain_openai installed) then
    raise (Exn (OtherException "RuntimeError")
             "langchain-openai is not installed. Install it or use provider=gemini.")
  else if String.eqb provider "deepseek" then
    match getenv w "DEEPSEEK_API_KEY" with
    | None | Some EmptyString =>
        raise (Exn ValueError "DEEPSEEK_API_KEY is not set; cannot use DeepSeek.")
    | Some api_key =>
        let base_url := getenv_or "DEEPSEEK_BASE_URL" "https://api.deepseek.com/v1" in
        let model_name := getenv_or "DEEPSEEK_MODEL_NAME" "deepseek-chat" in
        ret (ChatOpenAI model_name api_key base_url temperature_0_2)
    end
  else if String.eqb provider "llama3" then
    let base_url := getenv_or "GROQ_BASE_URL" "https://api.groq.com/openai/v1" in
    match getenv w "GROQ_API_KEY" with
    | None | Some EmptyString =>
        raise (Exn ValueError "GROQ_API_KEY is not set; cannot use Llama 3.")
    | Some api_key =>
        let model_name := getenv_or "LLAMA3_MODEL_NAME" "llama-3.1-70b-versatile" in
        ret (ChatOpenAI model_name api_key base_url temperature_0_2)
    end
  else if String.eqb provider "mistral" then
    match getenv w "MISTRAL_API_KEY" with
    | None | Some EmptyString =>
        raise (Exn ValueError "MISTRAL_API_KEY is not set; cannot use Mistral.")
    | Some api_key =>
        let base_url := getenv_or "MISTRAL_BASE_URL" "https://api.mistral.ai/v1" in
        let model_name := getenv_or "MISTRAL_MODEL_NAME" "mistral-large-latest" in
        ret (ChatOpenAI model_name api_key base_url temperature_0_2)
    end
  else raise (Exn ValueError ("Unsupported LLM provider: " ++ provider)).

End WithWorld.

End agent.


(** ** What the properties speak of *)

(** *** Traces *)

(** An operation was entered during a run. *)
Definition invoked (operation : string) (t : list event) : Prop :=
  exists argument, In (Enter operation argument) t.

(** *** The stock profile in closed form *)

(** The price [_fetch_latest_price] settles on, read off the world. *)
Definition latest_price (w : World) (symbol : string) : pyval :=
  match yf_history w symbol "1d" with
  | History hist =>
      if empty hist then PNone
      else match last_close hist with
           | Returned close => PFloat close
           | Raised _ => PNone
           end
  | _ => PNone
  end.

Definition priced_index (w : World) (idx : StockIndex.t) : pyval :=
  PDict [ ("symbol", PStr (StockIndex.symbol idx));
          ("name", PStr (StockIndex.name idx));
          ("last_price", latest_price w (StockIndex.symbol idx)) ].

(** An exchange of the catalog as it stands in a result. *)
Definition priced_exchange (w : World) (ex : StockExchange.t) : pyval :=
  PDict [ ("name", PStr (StockExchange.name ex));
          ("city", PStr (StockExchange.city ex));
          ("country", PStr (StockExchange.country ex));
          ("headquarters_address", PStr (StockExchange.headquarters_address ex));
          ("indices", PList (map (priced_index w) (StockExchange.indices ex))) ].

(** The exchanges configured for a country, aliases resolved. *)
Definition configured_exchanges (country : string) : list StockExchange.t :=
  match pydict.get (stock_tool._resolve_profile_key country)
          stock_tool.COUNTRY_STOCK_PROFILE with
  | Some l => l
  | None => []
  end.

(** The [exchanges] entry of the profile a call returns. *)
Definition exchanges_of (w : World) (country : string) : option pyval :=
  match result_of (stock_tool.get_country_stock_profile w country) with
  | Returned profile => pydict.get "exchanges" profile
  | Raised _ => None
  end.

(** The market-data requests of a stock profile, in the order made. *)
Definition history_requests (exchanges : list StockExchange.t) : list event :=
  flat_map
    (fun ex => map (fun idx => YfHistory (StockIndex.symbol idx) "1d")
                   (StockExchange.indices ex))
    exchanges.

(** The result of [get_country_stock_profile]. *)
Definition stock_profile_value (w : World) (country : string) : dict :=
  match configured_exchanges country with
  | [] =>
      [ ("country", PStr (pystr.strip country));
        ("exchanges", PList []);
        ("error", PStr "No stock exchange profile configured for this country.") ]
  | exchanges =>
      [ ("country", PStr (pystr.strip country));
        ("exchanges", PList (map (priced_exchange w) exchanges)) ]
  end.


(** *** The results of the currency resolver *)

(** The three shapes of a result of [get_currency_for_country]. *)
Definition local_currency_info (country : string)
    (mapping : currency_tool.currency) : dict :=
  [ ("country", PStr (pystr.strip country));
    ("currency_name", PStr (currency_tool.name mapping));
    ("currency_code", PStr (currency_tool.code mapping));
    ("source", PStr "local_mapping") ].

Definition remote_currency_info (country : string)
    (currency_name : pyval) (code : string) : dict :=
  [ ("country", PStr (pystr.strip country));
    ("currency_name", currency_name);
    ("currency_code", PStr code);
    ("source", PStr "restcountries") ].

Definition currency_error (country message : string) : dict :=
  [ ("country", PStr (pystr.strip country)); ("error", PStr message) ].

(** *** The results of the rate fetcher *)

(** What one turn of the loop over [target_currencies] does with a code. *)
Inductive entry_outcome : Type :=
| Absent                 (* [code in data] is false *)
| Skipped                (* the inner [except] clause: [continue] *)
| Rate (rate : float)    (* [rates[code] = rate] *)
| Fails (e : exn).       (* an exception leaves the loop *)

Definition classify_entry (w : World) (data : pyval) (code : string)
  : entry_outcome :=
  match result_of (py.contains_str code data) with
  | Raised e => Fails e
  | Returned false => Absent
  | Returned true =>
      match result_of (entry <- py.getitem_str data code ;;
                       value <- py.get entry "value" (PFloat 0%float) ;;
                       py.float (float_of_str w) value) with
      | Returned rate => Rate rate
      | Raised e =>
          if isinstance e [TypeError; ValueError] then Skipped else Fails e
      end
  end.

(** The value of an entry of the provider's [data]: its [value] member,
    [0.0] when it has none. *)
Definition entry_value (entry : dict) : pyval :=
  match pydict.get "value" entry with
  | Some v => v
  | None => PFloat 0%float
  end.

(** Numeric coercion: the float [float(v)] gives, if it gives one. *)
Definition coerced (w : World) (v : pyval) : option float :=
  match result_of (py.float (float_of_str w) v) with
  | Returned rate => Some rate
  | Raised _ => None
  end.

(** The rates of the codes of [codes] that are present in [data] as an
    object whose value coerces. *)
Definition surviving_rates (w : World) (data : dict) (codes : list string)
  : dict :=
  flat_map
    (fun code =>
       match pydict.get code data with
       | Some (PDict entry) =>
           match coerced w (entry_value entry) with
           | Some rate => [(code, PFloat rate)]
           | None => []
           end
       | _ => []
       end)
    codes.

(** An entry of the shape the provider documents: an object whose value is
    no integer beyond the range of a float. *)
Definition well_formed_entry (v : pyval) : Prop :=
  exists entry,
    v = PDict entry
    /\ forall z, entry_value entry = PInt z -> py.float_of_Z z <> None.

(** The three shapes of a result of [get_exchange_rates_for_currency]. *)
Definition rates_error (currency_code message : string) : dict :=
  [ ("base_currency", PStr (pystr.upper (pystr.strip currency_code)));
    ("error", PStr message) ].

Definition rates_success (currency_code : string) (rates : dict) : dict :=
  [ ("base_currency", PStr (pystr.upper (pystr.strip currency_code)));
    ("rates", PDict rates);
    ("provider", PStr "currencyapi.com") ].

(** The request [get_exchange_rates_for_currency] sends. *)
Definition rates_request (api_key currency_code : string) : event :=
  HttpGet currency_tool.currencyapi_url
    (currency_tool.currencyapi_params api_key
       (pystr.upper (pystr.strip currency_code))).

(** What the loop of [get_exchange_rates_for_currency] makes of a payload. *)
Definition rates_of_payload (w : World) (payload : pyval) : outcome dict :=
  result_of (data <- py.get payload "data" (PDict []) ;;
             currency_tool.collect_rates w data
               currency_tool.target_currencies []).

(** The result of [get_exchange_rates_for_currency] once the key is known,
    read off the provider's answer. *)
Definition rates_answer (w : World) (api_key currency_code : string) : dict :=
  match requests_get w currency_tool.currencyapi_url
          (currency_tool.currencyapi_params api_key
             (pystr.upper (pystr.strip currency_code))) with
  | RequestRaises e =>
      rates_error currency_code
        ("Exception while calling CurrencyAPI: " ++ exc_str e)
  | Responds resp =>
      if (status_code resp =? 200)%Z then
        match json resp with
        | Raised e =>
            rates_error currency_code
              ("Exception while calling CurrencyAPI: " ++ exc_str e)
        | Returned payload =>
            match rates_of_payload w payload with
            | Raised e =>
                rates_error currency_code
                  ("Exception while calling CurrencyAPI: " ++ exc_str e)
            | Returned [] =>
                rates_error currency_code
                  "No valid rates returned by CurrencyAPI."
            | Returned rates => rates_success currency_code rates
            end
        end
      else
        rates_error currency_code
          ("CurrencyAPI request failed with status "
           ++ pystr.of_int (status_code resp) ++ ": "
           ++ pystr.take 200 (text resp))
  end.

Definition key_missing_message : string :=
  "CURRENCY_API_KEY is not set. Sign up at https://currencyapi.com/ and add it to your .env file.".

(** *** The profile in closed form *)

(** The link [get_google_maps_link_for_address] returns. *)
Definition maps_link (address : string) : string :=
  "https://www.google.com/maps/search/?api=1&query="
  ++ urllib_parse.quote_plus (pystr.strip address).

Definition fx_unavailable : dict :=
  [ ("error",
     PStr "Could not determine currency code for this country; FX rates unavailable.") ].

(** The last two fields of the profile, read off the catalog. *)
Definition main_hq_address (country : string) : pyval :=
  match configured_exchanges country with
  | [] => PNone
  | ex :: _ => PStr (StockExchange.headquarters_address ex)
  end.

Definition google_maps_link (country : string) : pyval :=
  match configured_exchanges country with
  | [] => PNone
  | ex :: _ =>
      if String.eqb (StockExchange.headquarters_address ex) "" then PNone
      else PStr (maps_link (StockExchange.headquarters_address ex))
  end.

(** What [build_country_financial_profile] does after the rates: the stock
    profile, then the link. *)
Definition stock_and_link_trace (country : string) : list event :=
  (Enter "get_country_stock_profile" country
     :: history_requests (configured_exchanges country)
   ++ match configured_exchanges country with
      | [] => []
      | ex :: _ =>
          if String.eqb (StockExchange.headquarters_address ex) "" then []
          else [Enter "get_google_maps_link_for_address"
                  (StockExchange.headquarters_address ex)]
      end)%list.

(** The profile [build_country_financial_profile] assembles. *)
Definition profile_value (w : World) (country : string)
    (currency_info fx_rates : dict) : dict :=
  [ ("country", PStr country);
    ("currency", PDict currency_info);
    ("exchange_rates", PDict fx_rates);
    ("stocks", PDict (stock_profile_value w country));
    ("main_exchange_hq_address", main_hq_address country);
    ("google_maps_link", google_maps_link country) ].


(** *** Conditions on the providers *)


(** A remote call of an HTTP provider raises [e]: [requests.get] does, or
    [resp.json()] does on a response of status 200. *)
Definition http_call_raises (w : World) (url : string)
    (params : list (string * string)) (e : exn) : Prop :=
  requests_get w url params = RequestRaises e
  \/ exists resp,
       requests_get w url params = Responds resp
       /\ status_code resp = 200
       /\ json resp = Raised e.

(** The market-data call for a symbol raises [e]: [history] does, or reading
    the last close of a frame that is not empty does. *)
Definition history_call_raises (w : World) (symbol : string) (e : exn) : Prop :=
  yf_history w symbol "1d" = HistoryRaises e
  \/ exists hist,
       yf_history w symbol "1d" = History hist
       /\ empty hist = false
       /\ last_close hist = Raised e.


(** ** Sample worlds

    No sample answer spells a number as a string, so the parser of float
    literals is never consulted in them. *)

Definition connection_error : exn :=
  Exn (OtherException "ConnectionError") "connection refused".

(** Nothing answers: no key, no network, no market data. *)
Definition world_offline : World :=
  {| getenv := fun _ => None;
     requests_get := fun _ _ => RequestRaises connection_error;
     yf_history := fun _ _ => HistoryRaises connection_error;
     float_of_str := fun _ => None |}.

(** Every lookup of a country is answered with status 404. *)
Definition world_not_found : World :=
  {| getenv := fun _ => None;
     requests_get := fun _ _ =>
       Responds {| status_code := 404;
                   text := "Not Found";
                   json := Raised (Exn ValueError "Expecting value") |};
     yf_history := fun _ _ => HistoryNone;
     float_of_str := fun _ => None |}.

(** The key is configured and the rates provider answers every request
    with status 200 and the body [{"data": data}]; the country provider
    knows one country, whose currency is the euro. *)
Definition world_with_rates (data : pyval) : World :=
  {| getenv := fun name =>
       if String.eqb name "CURRENCY_API_KEY" then Some "secret" else None;
     requests_get := fun url _ =>
       if String.eqb url currency_tool.currencyapi_url then
         Responds {| status_code := 200;
                     text := "";
                     json := Returned (PDict [("data", data)]) |}
       else
         Responds {| status_code := 200;
                     text := "";
                     json := Returned
                       (PList [PDict [("name", PDict [("common", PStr "France")]);
                                      ("currencies",
                                       PDict [("EUR", PDict [("name", PStr "Euro");
                                                             ("symbol", PStr "E")])])]]) |};
     yf_history := fun _ _ =>
       History {| empty := false; last_close := Returned 100.5%float |};
     float_of_str := fun _ => None |}.

Definition rate_entry (code : string) (value : pyval) : pyval :=
  PDict [("code", PStr code); ("value", value)].

(** All four rates are there. *)
Definition data_complete : pyval :=
  PDict [ ("EUR", rate_entry "EUR" (PFloat 0.5%float));
          ("GBP", rate_entry "GBP" (PFloat 0.25%float));
          ("INR", rate_entry "INR" (PFloat 1%float));
          ("USD", rate_entry "USD" (PFloat 0.75%float)) ].

(** EUR is missing and the value of GBP is [null]. *)
Definition data_partial : pyval :=
  PDict [ ("GBP", rate_entry "GBP" PNone);
          ("INR", rate_entry "INR" (PFloat 83.5%float));
          ("USD", rate_entry "USD" (PFloat 1.5%float)) ].

(** The entry of INR is [null] instead of an object. *)
Definition data_null_entry : pyval :=
  PDict [ ("USD", rate_entry "USD" (PFloat 1.5%float)); ("INR", PNone) ].

(** The value of INR is an integer beyond the range of a float. *)
Definition data_huge_value : pyval :=
  PDict [ ("USD", rate_entry "USD" (PFloat 1.5%float));
          ("INR", rate_entry "INR" (PInt (10 ^ 400))) ].

(** The entry of USD has no value; the value of GBP is negative. *)
Definition data_odd_values : pyval :=
  PDict [ ("USD", PDict [("code", PStr "USD")]);
          ("GBP", rate_entry "GBP" (PFloat (-1.5)%float)) ].

(** ** Further notions *)

(** Every character of a string satisfies a test. *)
Fixpoint string_forall (p : ascii -> bool) (s : string) : bool :=
  match s with
  | EmptyString => true
  | String c r => p c && string_forall p r
  end.

(** A string of whitespace only. *)
Definition all_space (s : string) : bool := string_forall pystr.is_space s.

(** The characters that can stand in the query of a link: the ones
    [quote] leaves alone, the plus sign, and the percent sign with the
    hexadecimal digits that follow it. *)
Definition query_char (c : ascii) : bool :=
  urllib_parse.always_safe c || Ascii.eqb c "+" || Ascii.eqb c "%".

(** What [quote_plus] makes of one character. *)
Definition quote_plus_char (c : ascii) : string :=
  if urllib_parse.always_safe c then String c ""
  else if Ascii.eqb c " " then "+"
  else urllib_parse.percent c.

Fixpoint quote_plus_chars (s : string) : string :=
  match s with
  | EmptyString => EmptyString
  | String c r => quote_plus_char c ++ quote_plus_chars r
  end.

Definition hex_value (c : ascii) : N :=
  let n := N_of_ascii c in
  if (n <? 58)%N then (n - 48)%N else (n - 55)%N.

(** The reading back of a query: [+] is a space, [%XY] the byte XY. *)
Fixpoint unquote_plus (s : string) : string :=
  match s with
  | EmptyString => EmptyString
  | String c r =>
      if Ascii.eqb c "%" then
        match r with
        | String h (String l r') =>
            String (ascii_of_N (16 * hex_value h + hex_value l)) (unquote_plus r')
        | _ => String c (unquote_plus r)
        end
      else String (if Ascii.eqb c "+" then " "%char else c) (unquote_plus r)
  end.

(** The normalized names for which [get_country_stock_profile] finds
    exchanges: the keys of the catalog with a list that is not empty, and
    the aliases. *)
Definition supported_countries : list string :=
  [ "india"; "united states"; "usa"; "united states of america"; "japan";
    "united kingdom"; "uk"; "great britain"; "england"; "south korea";
    "china" ].

(** The request of the country provider. *)
Definition is_country_request (ev : event) : bool :=
  match ev with
  | HttpGet url _ =>
      pystr.contains "https://restcountries.com/" url
  | _ => false
  end.

Definition is_http (ev : event) : bool :=
  match ev with
  | HttpGet _ _ => true
  | _ => false
  end.

(** The provider [_get_llm] settles on. *)
Definition selected_provider (w : World) (provider : option string) : string :=
  match provider with
  | Some (String c p) => String c p
  | _ => pystr.lower (agent.getenv_or w "LLM_PROVIDER" "gemini")
  end.

(** The variable that holds the key of a provider. *)
Definition key_variable (provider : string) : option string :=
  if String.eqb provider "gemini" then Some "GOOGLE_API_KEY"
  else if String.eqb provider "deepseek" then Some "DEEPSEEK_API_KEY"
  else if String.eqb provider "llama3" then Some "GROQ_API_KEY"
  else if String.eqb provider "mistral" then Some "MISTRAL_API_KEY"
  else None.

Definition api_key_of (client : chat_model) : string :=
  match client with
  | ChatGoogleGenerativeAI _ key _ _ => key
  | ChatOpenAI _ key _ _ => key
  end.

Definition temperature_of (client : chat_model) : float :=
  match client with
  | ChatGoogleGenerativeAI _ _ t _ => t
  | ChatOpenAI _ _ _ t => t
  end.

(** The package a provider needs is installed. *)
Definition package_installed (installed : Installed) (provider : string) : bool :=
  if String.eqb provider "gemini" then langchain_google_genai installed
  else langchain_openai installed.

(** A process environment, as a world where nothing else answers. *)
Definition world_with_env (env : list (string * string)) : World :=
  {| getenv := fun name => pydict.get name env;
     requests_get := fun _ _ => RequestRaises connection_error;
     yf_history := fun _ _ => HistoryNone;
     float_of_str := fun _ => None |}.

Definition all_installed : Installed :=
  {| langchain_google_genai := true; langchain_openai := true |}.

(** No key is configured and the country provider gives one answer to
    every request. *)
Definition world_country (answer : http_result) : World :=
  {| getenv := fun _ => None;
     requests_get := fun _ _ => answer;
     yf_history := fun _ _ => HistoryNone;
     float_of_str := fun _ => None |}.

Definition ok_response (document : pyval) : http_result :=
  Responds {| status_code := 200; text := ""; json := Returned document |}.

(** A country that lists two currencies. *)
Definition two_currencies : dict :=
  [ ("name", PDict [("common", PStr "Panama")]);
    ("currencies",
     PDict [ ("PAB", PDict [("name", PStr "Panamanian balboa")]);
             ("USD", PDict [("name", PStr "United States dollar")]) ]) ].

(** [part * n] *)
Fixpoint repeated (part : string) (n : nat) : string :=
  match n with
  | O => ""
  | S n' => part ++ repeated part n'
  end.

(** The letter e with an acute accent, U+00E9: the bytes C3 A9. *)
Definition e_acute : string :=
  String (ascii_of_N 195) (String (ascii_of_N 169) "").

(** The key is configured and the rates provider answers every request
    with the given status and body. *)
Definition world_rates_status (status : Z) (body : string) : World :=
  {| getenv := fun name =>
       if String.eqb name "CURRENCY_API_KEY" then Some "secret" else None;
     requests_get := fun _ _ =>
       Responds {| status_code := status; text := body;
                   json := Raised (Exn ValueError "Expecting value") |};
     yf_history := fun _ _ => HistoryNone;
     float_of_str := fun _ => None |}.
(** ** The monad *)

Section MonadFacts.
Context {A B : Type}.

Lemma result_of_bind (m : M A) (k : A -> M B) :
  result_of (bind m k) =
  match result_of m with
  | Returned a => result_of (k a)
  | Raised e => Raised e
  end.
Proof.
  destruct m as [[a | e] t]; simpl; [destruct (k a) | ]; reflexivity.
Qed.

Lemma trace_of_bind (m : M A) (k : A -> M B) :
  trace_of (bind m k) =
  (trace_of m ++
   match result_of m with
   | Returned a => trace_of (k a)
   | Raised _ => []
   end)%list.
Proof.
  destruct m as [[a | e] t]; simpl; [destruct (k a) | rewrite app_nil_r];
    reflexivity.
Qed.

Lemma bind_returned (m : M A) (k : A -> M B) a t :
  m = (Returned a, t) ->
  bind m k = (result_of (k a), (t ++ trace_of (k a))%list).
Proof. intros ->. simpl. destruct (k a); reflexivity. Qed.

End MonadFacts.

Lemma surjective_run {A} (m : M A) : m = (result_of m, trace_of m).
Proof. destruct m; reflexivity. Qed.

(** ** Dictionaries *)

Section DictFacts.
Context {A : Type}.
Implicit Types (d : list (string * A)) (k : string) (v : A).

Lemma set_fresh k v d :
  pydict.has k d = false -> pydict.set k v d = (d ++ [(k, v)])%list.
Proof.
  unfold pydict.has. induction d as [ | [k' v'] r IH]; simpl; [reflexivity | ].
  destruct (String.eqb k k'); [discriminate | ].
  intros H. now rewrite IH.
Qed.

Lemma has_app_single c k v d :
  pydict.has c (d ++ [(k, v)])%list = pydict.has c d || String.eqb c k.
Proof.
  unfold pydict.has. induction d as [ | [k' v'] r IH]; simpl.
  - destruct (String.eqb c k); reflexivity.
  - destruct (String.eqb c k'); [reflexivity | exact IH].
Qed.

Lemma in_set k v d k0 v0 :
  In (k0, v0) (pydict.set k v d) -> In (k0, v0) d \/ (k0 = k /\ v0 = v).
Proof.
  induction d as [ | [k' v'] r IH]; simpl.
  - intros [H | []]. inversion H. now right.
  - destruct (String.eqb k k') eqn:E.
    + apply String.eqb_eq in E. subst k'.
      intros [H | H]; [inversion H; now right | left; now right].
    + intros [H | H]; [left; now left | ].
      destruct (IH H) as [H' | H']; [left; now right | now right].
Qed.

End DictFacts.

Section DictLookup.
Context {A : Type}.
Implicit Types (d : list (string * A)) (k : string) (v : A).

Lemma get_in k v d : pydict.get k d = Some v -> In (k, v) d.
Proof.
  induction d as [ | [k' v'] r IH]; simpl; [discriminate | ].
  destruct (String.eqb k k') eqn:E.
  - apply String.eqb_eq in E. subst k'. intros H. inversion H. now left.
  - intros H. right. now apply IH.
Qed.

Lemma has_in_keys k d : pydict.has k d = true <-> In k (pydict.keys d).
Proof.
  unfold pydict.has, pydict.keys.
  induction d as [ | [k' v'] r IH]; simpl; [split; [discriminate | tauto] | ].
  destruct (String.eqb k k') eqn:E.
  - apply String.eqb_eq in E. subst. split; [now left | reflexivity].
  - apply String.eqb_neq in E. rewrite IH. split; [now right | ].
    intros [H | H]; [congruence | exact H].
Qed.

End DictLookup.

Lemma mem_in s l : pystr.mem s l = true <-> In s l.
Proof.
  unfold pystr.mem. rewrite existsb_exists. split.
  - intros (x & Hx & E). apply String.eqb_eq in E. now subst.
  - intros H. exists s. split; [exact H | apply String.eqb_refl].
Qed.

(** ** The stock profile *)

Section StockFacts.
Variable w : World.

Lemma fetch_latest_price_run symbol :
  stock_tool._fetch_latest_price w symbol
  = (Returned (latest_price w symbol), [YfHistory symbol "1d"]).
Proof.
  unfold stock_tool._fetch_latest_price, latest_price.
  destruct (yf_history w symbol "1d") as [e | | hist]; try reflexivity.
  destruct (empty hist); try reflexivity.
  destruct (last_close hist); reflexivity.
Qed.

Lemma indices_with_prices_run indices :
  stock_tool.indices_with_prices w indices
  = (Returned (map (priced_index w) indices),
     map (fun idx => YfHistory (StockIndex.symbol idx) "1d") indices).
Proof.
  induction indices as [ | idx rest IH]; [reflexivity | ].
  cbn [stock_tool.indices_with_prices map].
  rewrite (bind_returned _ _ _ _ (fetch_latest_price_run _)).
  rewrite (bind_returned _ _ _ _ IH). cbn [ret result_of trace_of fst snd app].
  rewrite app_nil_r. reflexivity.
Qed.

Lemma result_exchanges_run exchanges :
  stock_tool.result_exchanges w exchanges
  = (Returned (map (priced_exchange w) exchanges), history_requests exchanges).
Proof.
  induction exchanges as [ | ex rest IH]; [reflexivity | ].
  cbn [stock_tool.result_exchanges map history_requests flat_map].
  rewrite (bind_returned _ _ _ _ (indices_with_prices_run _)).
  rewrite (bind_returned _ _ _ _ IH). cbn [ret result_of trace_of fst snd].
  rewrite app_nil_r. reflexivity.
Qed.

Lemma stock_profile_run country :
  stock_tool.get_country_stock_profile w country
  = (Returned (stock_profile_value w country),
     Enter "get_country_stock_profile" country
       :: history_requests (configured_exchanges country)).
Proof.
  unfold stock_tool.get_country_stock_profile, stock_profile_value.
  cbv zeta.
  change (match pydict.get (stock_tool._resolve_profile_key country)
                  stock_tool.COUNTRY_STOCK_PROFILE with
          | Some l => l
          | None => []
          end) with (configured_exchanges country).
  destruct (configured_exchanges country) as [ | ex rest]; [reflexivity | ].
  rewrite (bind_returned _ _ _ _ (result_exchanges_run _)).
  cbn [emit bind ret result_of trace_of fst snd app].
  rewrite app_nil_r. reflexivity.
Qed.

Lemma stock_profile_result country :
  result_of (stock_tool.get_country_stock_profile w country)
  = Returned (stock_profile_value w country).
Proof. now rewrite stock_profile_run. Qed.

Lemma exchanges_of_eq country :
  exchanges_of w country
  = Some (PList (map (priced_exchange w) (configured_exchanges country))).
Proof.
  unfold exchanges_of. rewrite stock_profile_result. unfold stock_profile_value.
  destruct (configured_exchanges country); reflexivity.
Qed.

Lemma history_requests_are_history exchanges ev :
  In ev (history_requests exchanges) -> exists symbol, ev = YfHistory symbol "1d".
Proof.
  unfold history_requests. rewrite in_flat_map. intros (ex & _ & H).
  apply in_map_iff in H as (idx & <- & _). now eexists.
Qed.

End StockFacts.

(** C3.  The profile of [get_country_stock_profile] carries an [error] field
    exactly when its [exchanges] list is empty; the list holds every exchange
    configured for the country, whatever the market-data provider answered,
    so that a missing price neither drops an exchange nor brings an [error]
    field. *)
Theorem stock_profile_error_iff_no_exchanges (w : World) (country : string) :
  exists profile listed,
    result_of (stock_tool.get_country_stock_profile w country) = Returned profile
    /\ pydict.get "exchanges" profile = Some (PList listed)
    /\ (pydict.has "error" profile = true <-> listed = [])
    /\ listed = map (priced_exchange w) (configured_exchanges country)
    /\ length listed = length (configured_exchanges country).
Proof.
  rewrite stock_profile_result. unfold stock_profile_value.
  destruct (configured_exchanges country) as [ | ex rest].
  - eexists; exists []. repeat split; reflexivity.
  - eexists; eexists. split; [reflexivity | ]. split; [reflexivity | ].
    split; [ | split; [reflexivity | simpl; now rewrite length_map]].
    split; discriminate.
Qed.

(** C4.  The alias inputs "usa", "united states of america" and "uk" give
    the exchange list of "united states" and "united kingdom": the empty
    lists stored under the alias keys do not shadow the canonical entry, and
    the list is not empty. *)
Theorem alias_keys_give_canonical_exchanges (w : World) :
  exchanges_of w "usa" = exchanges_of w "united states"
  /\ exchanges_of w "united states of america" = exchanges_of w "united states"
  /\ exchanges_of w "uk" = exchanges_of w "united kingdom"
  /\ (exists nyse nasdaq,
        exchanges_of w "united states" = Some (PList [nyse; nasdaq])
        /\ pydict.get "usa" stock_tool.COUNTRY_STOCK_PROFILE = Some []
        /\ pydict.get "united states of america" stock_tool.COUNTRY_STOCK_PROFILE
           = Some [])
  /\ (exists lse,
        exchanges_of w "united kingdom" = Some (PList [lse])
        /\ pydict.get "uk" stock_tool.COUNTRY_STOCK_PROFILE = Some []).
Proof.
  rewrite !exchanges_of_eq.
  repeat split; try reflexivity.
  - do 2 eexists. repeat split; reflexivity.
  - eexists. repeat split; reflexivity.
Qed.

(** C10.  An input that trims and lower-cases to "england" or to
    "great britain" gives the exchange list of "united kingdom", which is not
    empty, although neither string is a key of the catalog. *)
Theorem england_and_great_britain_give_united_kingdom
    (w : World) (country : string) :
  stock_tool._normalize_country country = "england"
  \/ stock_tool._normalize_country country = "great britain" ->
  exchanges_of w country = exchanges_of w "united kingdom"
  /\ (exists lse, exchanges_of w country = Some (PList [lse]))
  /\ pydict.has (stock_tool._normalize_country country)
       stock_tool.COUNTRY_STOCK_PROFILE = false.
Proof.
  intros H. rewrite !exchanges_of_eq.
  assert (E : configured_exchanges country
              = configured_exchanges "united kingdom").
  { unfold configured_exchanges, stock_tool._resolve_profile_key.
    destruct H as [-> | ->]; reflexivity. }
  rewrite E. split; [reflexivity | ]. split.
  - eexists. reflexivity.
  - destruct H as [-> | ->]; reflexivity.
Qed.

(** The theorem at "  England " in a world where nothing answers. *)
Lemma england_and_great_britain_witness :
  stock_tool._normalize_country "  England " = "england"
  /\ exchanges_of world_offline "  England "
     = exchanges_of world_offline "united kingdom".
Proof.
  split; [reflexivity | ].
  apply (england_and_great_britain_give_united_kingdom world_offline "  England ").
  left. reflexivity.
Defined.

(** ** The currency resolver *)

Section CurrencyFacts.
Variable w : World.

Lemma currency_local_result country mapping :
  pydict.get (currency_tool._normalize_country country)
    currency_tool.COUNTRY_CURRENCY_MAP = Some mapping ->
  currency_tool.get_currency_for_country w country
  = (Returned (local_currency_info country mapping),
     [Enter "get_currency_for_country" country]).
Proof.
  intros E. unfold currency_tool.get_currency_for_country.
  cbv zeta. rewrite E. reflexivity.
Qed.

Lemma currency_remote_shape country :
  pydict.get (currency_tool._normalize_country country)
    currency_tool.COUNTRY_CURRENCY_MAP = None ->
  exists info,
    currency_tool.get_currency_for_country w country
    = (Returned info,
       [Enter "get_currency_for_country" country;
        HttpGet (currency_tool.restcountries_url country)
          currency_tool.restcountries_params])
    /\ ((exists message, info = currency_error country message)
        \/ (exists currency_name code,
              info = remote_currency_info country currency_name code)).
Proof.
  intros E. unfold currency_tool.get_currency_for_country.
  cbv zeta. rewrite E. unfold currency_tool.requests_get_.
  destruct (requests_get w _ _) as [e | resp]; simpl.
  { eexists. split; [reflexivity | left; eexists; reflexivity]. }
  destruct (status_code resp =? 200)%Z; simpl.
  2: { eexists. split; [reflexivity | left; eexists; reflexivity]. }
  destruct (json resp) as [data | e]; simpl.
  2: { eexists. split; [reflexivity | left; eexists; reflexivity]. }
  destruct (truthy data) eqn:Td; simpl.
  2: { eexists. split; [reflexivity | left; eexists; reflexivity]. }
  assert (Hfirst : (exists first, py.getitem_0 data = (Returned first, []))
                   \/ (exists e, py.getitem_0 data = (Raised e, []))).
  { destruct data as [ | b | z | f | s | l | d]; simpl;
      try (right; eexists; reflexivity).
    - destruct s; [right | left]; eexists; reflexivity.
    - destruct l; [right | left]; eexists; reflexivity. }
  destruct Hfirst as [[first ->] | [e ->]]; simpl.
  2: { eexists. split; [reflexivity | left; eexists; reflexivity]. }
  assert (Hfound : (exists found, py.get first "currencies" PNone = (Returned found, []))
                   \/ (exists e, py.get first "currencies" PNone = (Raised e, []))).
  { destruct first; try (right; eexists; reflexivity); left; eexists; reflexivity. }
  destruct Hfound as [[found ->] | [e ->]]; simpl.
  2: { eexists. split; [reflexivity | left; eexists; reflexivity]. }
  destruct (truthy found) eqn:Tf; simpl.
  2: { eexists. split; [reflexivity | left; eexists; reflexivity]. }
  rewrite Tf; simpl.
  assert (Hitem : (exists code info, py.first_item found = (Returned (code, info), []))
                  \/ (exists e, py.first_item found = (Raised e, []))).
  { destruct found as [ | b | z | f | s | l | d];
      try (right; eexists; reflexivity).
    destruct d as [ | [code info] rest];
      [right; eexists | left; do 2 eexists]; reflexivity. }
  destruct Hitem as [(code & info & ->) | [e ->]]; simpl.
  2: { eexists. split; [reflexivity | left; eexists; reflexivity]. }
  assert (Hname : (exists nm, py.get info "name" (PStr "") = (Returned nm, []))
                  \/ (exists e, py.get info "name" (PStr "") = (Raised e, []))).
  { destruct info; try (right; eexists; reflexivity); left; eexists; reflexivity. }
  destruct Hname as [[nm ->] | [e ->]]; simpl.
  2: { eexists. split; [reflexivity | left; eexists; reflexivity]. }
  eexists. split; [reflexivity | right; do 2 eexists; reflexivity].
Qed.

End CurrencyFacts.

(** ** The exchange-rate fetcher *)

Section RatesFacts.
Variable w : World.

Lemma contains_str_silent code data :
  trace_of (py.contains_str code data) = [].
Proof. destruct data; reflexivity. Qed.

(** The body of the inner [try], in terms of the float it computes. *)
Lemma entry_body_eq data code rates :
  (entry <- py.getitem_str data code ;;
   value <- py.get entry "value" (PFloat 0%float) ;;
   rate <- py.float (float_of_str w) value ;;
   ret (pydict.set code (PFloat rate) rates))
  = match result_of (entry <- py.getitem_str data code ;;
                     value <- py.get entry "value" (PFloat 0%float) ;;
                     py.float (float_of_str w) value) with
    | Returned rate => (Returned (pydict.set code (PFloat rate) rates), [])
    | Raised e => (Raised e, [])
    end.
Proof.
  destruct data as [ | | | | | | d]; try reflexivity.
  cbn [py.getitem_str].
  destruct (pydict.get code d) as [entry | ]; [ | reflexivity].
  destruct entry as [ | | | | | | e]; try reflexivity.
  cbn [ret bind py.get app result_of fst].
  destruct (match pydict.get "value" e with Some x => x | None => PFloat 0%float end)
    as [ | b | z | f | s | l | d']; try reflexivity; cbn [py.float].
  - destruct (py.float_of_Z z); reflexivity.
  - destruct (float_of_str w s); reflexivity.
Qed.

(** One turn of the loop. *)
Lemma collect_rates_step data code rest rates :
  currency_tool.collect_rates w data (code :: rest) rates
  = match classify_entry w data code with
    | Absent | Skipped => currency_tool.collect_rates w data rest rates
    | Rate rate =>
        currency_tool.collect_rates w data rest
          (pydict.set code (PFloat rate) rates)
    | Fails e => (Raised e, [])
    end.
Proof.
  unfold classify_entry. cbn [currency_tool.collect_rates].
  rewrite entry_body_eq.
  rewrite (surjective_run (py.contains_str code data)), contains_str_silent.
  destruct (result_of (py.contains_str code data)) as [present | e];
    [ | reflexivity].
  cbn [bind result_of fst app].
  destruct present.
  2: { destruct (currency_tool.collect_rates w data rest rates); reflexivity. }
  destruct (result_of (entry <- py.getitem_str data code ;; _)) as [rate | e];
    unfold try_except_of.
  - cbn [bind app].
    destruct (currency_tool.collect_rates w data rest _); reflexivity.
  - destruct (isinstance e [TypeError; ValueError]); [ | reflexivity].
    cbn [ret bind app].
    destruct (currency_tool.collect_rates w data rest rates); reflexivity.
Qed.

Lemma collect_rates_silent data codes rates :
  trace_of (currency_tool.collect_rates w data codes rates) = [].
Proof.
  revert rates. induction codes as [ | code rest IH]; intros rates;
    [reflexivity | ].
  rewrite collect_rates_step.
  destruct (classify_entry w data code); auto.
Qed.

Lemma classify_entry_dict d code :
  classify_entry w (PDict d) code
  = match pydict.get code d with
    | None => Absent
    | Some (PDict entry) =>
        match result_of (py.float (float_of_str w) (entry_value entry)) with
        | Returned rate => Rate rate
        | Raised e =>
            if isinstance e [TypeError; ValueError] then Skipped else Fails e
        end
    | Some v =>
        Fails (Exn AttributeError
                 ("'" ++ type_name v ++ "' object has no attribute 'get'"))
    end.
Proof.
  unfold classify_entry, entry_value.
  cbn [py.contains_str py.getitem_str ret result_of fst].
  unfold pydict.has.
  destruct (pydict.get code d) as [v | ] eqn:Eg; [ | reflexivity].
  rewrite result_of_bind. cbn [ret result_of fst].
  destruct v as [ | | | | | | entry]; try reflexivity.
  rewrite result_of_bind. reflexivity.
Qed.

(** Only an object of [data] that is itself an object gives a rate. *)
Lemma classify_entry_rate data code rate :
  classify_entry w data code = Rate rate ->
  exists d entry,
    data = PDict d
    /\ pydict.get code d = Some (PDict entry)
    /\ coerced w (entry_value entry) = Some rate.
Proof.
  destruct data as [ | b | z | f | s | l | d]; try discriminate.
  - unfold classify_entry. cbn [py.contains_str ret result_of fst].
    destruct (pystr.contains code s); discriminate.
  - unfold classify_entry. cbn [py.contains_str ret result_of fst].
    destruct (existsb (py.is_str code) l); discriminate.
  - rewrite classify_entry_dict. intros H. exists d.
    destruct (pydict.get code d) as [v | ]; [ | discriminate].
    destruct v as [ | | | | | | entry]; try discriminate.
    exists entry. repeat split. unfold coerced.
    destruct (result_of _) as [r | e].
    + now inversion H.
    + destruct (isinstance e _); discriminate.
Qed.

(** [float] raises TypeError or ValueError, or OverflowError on an integer
    out of range. *)
Lemma float_raises v e :
  result_of (py.float (float_of_str w) v) = Raised e ->
  isinstance e [TypeError; ValueError] = true
  \/ (exists z, v = PInt z /\ py.float_of_Z z = None).
Proof.
  destruct v as [ | b | z | f | s | l | d]; cbn [py.float];
    try (intros H; inversion H; left; reflexivity); try discriminate.
  - destruct (py.float_of_Z z) eqn:E; [discriminate | ].
    intros _. right. now exists z.
  - destruct (float_of_str w s); [discriminate | ].
    intros H; inversion H; left; reflexivity.
Qed.

(** The loop over a well-formed [data]: the surviving rates are appended, in
    the order of the codes. *)
Lemma collect_rates_dict d codes : forall rates,
  NoDup codes ->
  (forall c, In c codes -> pydict.has c rates = false) ->
  (forall c v, In c codes -> pydict.get c d = Some v -> well_formed_entry v) ->
  currency_tool.collect_rates w (PDict d) codes rates
  = (Returned (rates ++ surviving_rates w d codes)%list, []).
Proof.
  induction codes as [ | code rest IH]; intros rates Hnd Hfresh Hwf.
  - simpl. now rewrite app_nil_r.
  - inversion Hnd as [ | ? ? Hnotin Hnd']; subst.
    rewrite collect_rates_step, classify_entry_dict.
    cbn [surviving_rates flat_map]. fold (surviving_rates w d rest).
    assert (IHsame : currency_tool.collect_rates w (PDict d) rest rates
                     = (Returned (rates ++ surviving_rates w d rest)%list, [])).
    { apply IH; auto. - intros c Hc. apply Hfresh. now right.
      - intros c v Hc. apply Hwf. now right. }
    destruct (pydict.get code d) as [v | ] eqn:Eg; [ | exact IHsame].
    destruct (Hwf code v (or_introl eq_refl) Eg) as (entry & -> & Hint).
    unfold coerced.
    destruct (result_of (py.float (float_of_str w) (entry_value entry)))
      as [rate | e] eqn:Ef.
    + rewrite set_fresh by (apply Hfresh; now left).
      rewrite IH; auto.
      * now rewrite <- app_assoc.
      * intros c Hc. rewrite has_app_single, Hfresh by now right.
        simpl. apply String.eqb_neq. intros ->. contradiction.
      * intros c v Hc. apply Hwf. now right.
    + destruct (float_raises _ _ Ef) as [-> | (z & Hz & Hov)]; [exact IHsame | ].
      exfalso. exact (Hint z Hz Hov).
Qed.

(** Whatever [data] is, an entry of the dictionary the loop returns was
    there before or is the float of an entry of [data]. *)
Lemma collect_rates_entries data codes : forall rates rates',
  result_of (currency_tool.collect_rates w data codes rates) = Returned rates' ->
  forall k v, In (k, v) rates' ->
  In (k, v) rates
  \/ (In k codes
      /\ exists rate, v = PFloat rate /\ classify_entry w data k = Rate rate).
Proof.
  induction codes as [ | code rest IH]; intros rates rates' H k v Hin.
  - inversion H. subst. now left.
  - rewrite collect_rates_step in H.
    destruct (classify_entry w data code) as [ | | rate | e] eqn:Ec;
      try discriminate.
    + destruct (IH _ _ H k v Hin) as [? | (? & ?)]; [now left | right].
      split; [now right | assumption].
    + destruct (IH _ _ H k v Hin) as [? | (? & ?)]; [now left | right].
      split; [now right | assumption].
    + destruct (IH _ _ H k v Hin) as [Hs | (? & ?)].
      * destruct (in_set _ _ _ _ _ Hs) as [? | [-> ->]]; [now left | right].
        split; [now left | ]. now exists rate.
      * right. split; [now right | assumption].
Qed.

Lemma exchange_rates_without_key currency_code :
  getenv w "CURRENCY_API_KEY" = None \/ getenv w "CURRENCY_API_KEY" = Some "" ->
  currency_tool.get_exchange_rates_for_currency w currency_code
  = (Returned (rates_error currency_code key_missing_message),
     [Enter "get_exchange_rates_for_currency" currency_code]).
Proof.
  intros H. unfold currency_tool.get_exchange_rates_for_currency. cbv zeta.
  destruct H as [-> | ->]; reflexivity.
Qed.

Lemma exchange_rates_with_key currency_code api_key :
  getenv w "CURRENCY_API_KEY" = Some api_key -> api_key <> "" ->
  currency_tool.get_exchange_rates_for_currency w currency_code
  = (Returned (rates_answer w api_key currency_code),
     [Enter "get_exchange_rates_for_currency" currency_code;
      rates_request api_key currency_code]).
Proof.
  intros E Hne. unfold currency_tool.get_exchange_rates_for_currency. cbv zeta.
  rewrite E. destruct api_key as [ | c key]; [congruence | ].
  unfold rates_answer, rates_request, currency_tool.requests_get_.
  destruct (requests_get w _ _) as [e | resp]; [reflexivity | ].
  cbn [emit ret bind try_except app].
  destruct (status_code resp =? 200)%Z; cbn [negb]; [ | reflexivity].
  destruct (json resp) as [payload | e]; [ | reflexivity].
  unfold rates_of_payload. cbn [lift bind app].
  rewrite result_of_bind.
  destruct (py.get payload "data" (PDict [])) as [[data | e] t] eqn:Eg.
  2: { destruct payload; inversion Eg; reflexivity. }
  assert (t = []) as -> by (destruct payload; inversion Eg; reflexivity).
  cbn [result_of fst bind app].
  pose proof (collect_rates_silent data currency_tool.target_currencies [])
    as Hs.
  destruct (currency_tool.collect_rates w data _ _) as [[rates | e] t'].
  - cbn [trace_of snd] in Hs. subst t'. destruct rates; reflexivity.
  - cbn [trace_of snd] in Hs. subst t'. reflexivity.
Qed.

End RatesFacts.

Lemma in_surviving_rates w d codes k v :
  In (k, v) (surviving_rates w d codes)
  <-> In k codes
      /\ exists entry rate,
           pydict.get k d = Some (PDict entry)
           /\ coerced w (entry_value entry) = Some rate
           /\ v = PFloat rate.
Proof.
  unfold surviving_rates. rewrite in_flat_map. split.
  - intros (code & Hc & Hin).
    destruct (pydict.get code d) as [[ | | | | | | entry] | ] eqn:Eg;
      try contradiction.
    destruct (coerced w (entry_value entry)) as [rate | ] eqn:Ec;
      [ | contradiction].
    destruct Hin as [Hin | []]. inversion Hin; subst.
    split; [assumption | ]. now exists entry, rate.
  - intros (Hc & entry & rate & Eg & Ec & ->).
    exists k. split; [assumption | ]. rewrite Eg, Ec. now left.
Qed.

Lemma target_currencies_nodup : NoDup currency_tool.target_currencies.
Proof.
  unfold currency_tool.target_currencies.
  repeat constructor; simpl; intuition discriminate.
Qed.

(** The run of the fetcher over a well-formed answer. *)
Lemma exchange_rates_well_formed_run
    (w : World) (currency_code api_key : string) (resp : Response)
    (payload data : dict) :
  getenv w "CURRENCY_API_KEY" = Some api_key ->
  api_key <> "" ->
  requests_get w currency_tool.currencyapi_url
    (currency_tool.currencyapi_params api_key
       (pystr.upper (pystr.strip currency_code))) = Responds resp ->
  status_code resp = 200 ->
  json resp = Returned (PDict payload) ->
  match pydict.get "data" payload with
  | Some v => v
  | None => PDict []
  end = PDict data ->
  (forall code v, In code currency_tool.target_currencies ->
                  pydict.get code data = Some v -> well_formed_entry v) ->
  currency_tool.get_exchange_rates_for_currency w currency_code
  = (Returned
       match surviving_rates w data currency_tool.target_currencies with
       | [] => rates_error currency_code
                 "No valid rates returned by CurrencyAPI."
       | rates => rates_success currency_code rates
       end,
     [Enter "get_exchange_rates_for_currency" currency_code;
      rates_request api_key currency_code]).
Proof.
  intros Hkey Hne Hreq Hstatus Hjson Hdata Hwf.
  rewrite (exchange_rates_with_key w currency_code api_key Hkey Hne).
  f_equal. f_equal.
  unfold rates_answer. rewrite Hreq, Hstatus, Hjson. cbn [Z.eqb Pos.eqb].
  unfold rates_of_payload. cbn [py.get]. rewrite Hdata.
  rewrite result_of_bind. cbn [ret result_of fst].
  rewrite collect_rates_dict;
    [ | apply target_currencies_nodup | reflexivity | exact Hwf].
  cbn [app result_of fst].
  destruct (surviving_rates w data _); reflexivity.
Qed.

(** C5, as the code has it.  When the key is configured and the rates
    provider answers with status 200 and a JSON object whose [data] member
    (an empty object when there is none) is an object in which every target
    entry that is present is itself an object, with no integer value beyond
    the range of a float, then [rates] holds exactly the target codes present
    in [data] whose value (0.0 for an entry without [value]) coerces with
    [float()], in the order USD, INR, GBP, EUR; entries whose coercion raises
    TypeError or ValueError are left out.  The result has [rates] and no
    [error] field when one entry survives, and an [error] field and no
    [rates] when none does. *)
Theorem rates_are_the_surviving_entries
    (w : World) (currency_code api_key : string) (resp : Response)
    (payload data : dict) :
  getenv w "CURRENCY_API_KEY" = Some api_key ->
  api_key <> "" ->
  requests_get w currency_tool.currencyapi_url
    (currency_tool.currencyapi_params api_key
       (pystr.upper (pystr.strip currency_code))) = Responds resp ->
  status_code resp = 200 ->
  json resp = Returned (PDict payload) ->
  match pydict.get "data" payload with
  | Some v => v
  | None => PDict []
  end = PDict data ->
  (forall code v, In code currency_tool.target_currencies ->
                  pydict.get code data = Some v -> well_formed_entry v) ->
  exists info,
    result_of (currency_tool.get_exchange_rates_for_currency w currency_code)
    = Returned info
    /\ info = match surviving_rates w data currency_tool.target_currencies with
              | [] => rates_error currency_code
                        "No valid rates returned by CurrencyAPI."
              | rates => rates_success currency_code rates
              end
    /\ (pydict.has "error" info = true
        <-> surviving_rates w data currency_tool.target_currencies = [])
    /\ (pydict.has "rates" info = true
        <-> surviving_rates w data currency_tool.target_currencies <> [])
    /\ (forall k v,
          In (k, v) (surviving_rates w data currency_tool.target_currencies)
          <-> In k currency_tool.target_currencies
              /\ exists entry rate,
                   pydict.get k data = Some (PDict entry)
                   /\ coerced w (entry_value entry) = Some rate
                   /\ v = PFloat rate).
Proof.
  intros Hkey Hne Hreq Hstatus Hjson Hdata Hwf.
  rewrite (exchange_rates_well_formed_run w currency_code api_key resp payload
             data Hkey Hne Hreq Hstatus Hjson Hdata Hwf).
  cbn [result_of fst]. eexists. split; [reflexivity | ].
  split; [reflexivity | ].
  split; [ | split; [ | intros k v; apply in_surviving_rates]].
  - destruct (surviving_rates w data _); split;
      solve [reflexivity | discriminate].
  - destruct (surviving_rates w data _); split;
      solve [reflexivity | discriminate | congruence].
Qed.

(** The theorem at an answer without EUR and with a [null] value for GBP:
    USD and INR survive, and the result has no [error]. *)
Lemma rates_are_the_surviving_entries_witness :
  exists info,
    result_of (currency_tool.get_exchange_rates_for_currency
                 (world_with_rates data_partial) "inr")
    = Returned info
    /\ info = rates_success "inr"
                [("USD", PFloat 1.5%float); ("INR", PFloat 83.5%float)]
    /\ pydict.has "error" info = false.
Proof.
  destruct (rates_are_the_surviving_entries
              (world_with_rates data_partial) "inr" "secret"
              {| status_code := 200; text := "";
                 json := Returned (PDict [("data", data_partial)]) |}
              [("data", data_partial)]
              [ ("GBP", rate_entry "GBP" PNone);
                ("INR", rate_entry "INR" (PFloat 83.5%float));
                ("USD", rate_entry "USD" (PFloat 1.5%float)) ])
    as (info & Hres & Hinfo & _).
  - reflexivity.
  - discriminate.
  - reflexivity.
  - reflexivity.
  - reflexivity.
  - reflexivity.
  - intros code v [<- | [<- | [<- | [<- | []]]]] Hget;
      inversion Hget; subst; eexists; (split; [reflexivity | ]);
      intros z Hz; discriminate.
  - exists info. split; [exact Hres | ]. split; [exact Hinfo | ].
    rewrite Hinfo. reflexivity.
Defined.

(** C5 as stated fails twice, the provider answering with status 200 each
    time.  An entry of USD without [value] has no value to coerce, yet USD
    enters [rates], as 0.0.  And when the USD entry survives coercion but
    the INR entry is [null], or carries an integer beyond the range of a
    float, that entry is not skipped: the result has an [error] field and
    no [rates]. *)
Lemma missing_value_enters_and_bad_entry_fails :
  (pydict.get "value" [("code", PStr "USD")] = @None pyval
   /\ result_of (currency_tool.get_exchange_rates_for_currency
                   (world_with_rates data_odd_values) "INR")
      = Returned
          (rates_success "INR"
             [("USD", PFloat 0%float); ("GBP", PFloat (-1.5)%float)]))
  /\ (coerced (world_with_rates data_null_entry)
        (entry_value [("code", PStr "USD"); ("value", PFloat 1.5%float)])
      = Some 1.5%float
      /\ result_of (currency_tool.get_exchange_rates_for_currency
                      (world_with_rates data_null_entry) "INR")
         = Returned
             (rates_error "INR"
                "Exception while calling CurrencyAPI: 'NoneType' object has no attribute 'get'"))
  /\ (coerced (world_with_rates data_huge_value) (PInt (10 ^ 400)) = None
      /\ result_of (currency_tool.get_exchange_rates_for_currency
                      (world_with_rates data_huge_value) "INR")
         = Returned
             (rates_error "INR"
                "Exception while calling CurrencyAPI: int too large to convert to float")).
Proof. repeat split; vm_compute; reflexivity. Qed.

(** The result has [rates] only on the path where the loop filled them. *)
Lemma rates_present_inv w currency_code info rates :
  result_of (currency_tool.get_exchange_rates_for_currency w currency_code)
  = Returned info ->
  pydict.get "rates" info = Some rates ->
  exists api_key resp payload entry rest,
    getenv w "CURRENCY_API_KEY" = Some api_key
    /\ api_key <> ""
    /\ requests_get w currency_tool.currencyapi_url
         (currency_tool.currencyapi_params api_key
            (pystr.upper (pystr.strip currency_code))) = Responds resp
    /\ status_code resp = 200
    /\ json resp = Returned payload
    /\ rates_of_payload w payload = Returned (entry :: rest)
    /\ rates = PDict (entry :: rest).
Proof.
  intros Hres Hrates.
  destruct (getenv w "CURRENCY_API_KEY") as [api_key | ] eqn:Ek.
  2: { rewrite exchange_rates_without_key in Hres by now left.
       inversion Hres; subst. discriminate. }
  destruct (string_dec api_key "") as [-> | Hne].
  { rewrite exchange_rates_without_key in Hres by now right.
    inversion Hres; subst. discriminate. }
  rewrite (exchange_rates_with_key w currency_code api_key Ek Hne) in Hres.
  inversion Hres as [Hinfo]; clear Hres. unfold rates_answer in Hinfo.
  destruct (requests_get w _ _) as [e | resp] eqn:Er;
    [subst; discriminate | ].
  destruct (status_code resp =? 200)%Z eqn:Es; [ | subst; discriminate].
  apply Z.eqb_eq in Es.
  destruct (json resp) as [payload | e] eqn:Ej; [ | subst; discriminate].
  destruct (rates_of_payload w payload) as [[ | entry rest] | e] eqn:Ep;
    try (subst; discriminate).
  subst info. inversion Hrates; subst.
  exists api_key, resp, payload, entry, rest. repeat split; assumption.
Qed.

(** C6, as the code has it.  When the result carries [rates], it is a
    dictionary whose keys are among USD, INR, GBP, EUR, and each value is the
    float that [float()] makes of the [value] member of the provider's entry
    for that key, or of 0.0 when the entry has no [value] member; no entry is
    [None] or of another type.  (The sign of a value is not examined.) *)
Theorem rates_are_floats_of_provider_entries
    (w : World) (currency_code : string) (info : dict) (rates : pyval) :
  result_of (currency_tool.get_exchange_rates_for_currency w currency_code)
  = Returned info ->
  pydict.get "rates" info = Some rates ->
  exists (rated : dict) api_key resp (payload data : dict),
    rates = PDict rated
    /\ getenv w "CURRENCY_API_KEY" = Some api_key
    /\ requests_get w currency_tool.currencyapi_url
         (currency_tool.currencyapi_params api_key
            (pystr.upper (pystr.strip currency_code))) = Responds resp
    /\ status_code resp = 200
    /\ json resp = Returned (PDict payload)
    /\ pydict.get "data" payload = Some (PDict data)
    /\ forall k v, In (k, v) rated ->
         In k currency_tool.target_currencies
         /\ exists entry rate,
              pydict.get k data = Some (PDict entry)
              /\ coerced w (entry_value entry) = Some rate
              /\ v = PFloat rate.
Proof.
  intros Hres Hrates.
  destruct (rates_present_inv _ _ _ _ Hres Hrates)
    as (api_key & resp & payload & [k0 v0] & rest
        & Hkey & Hne & Hreq & Hstatus & Hjson & Hpay & ->).
  unfold rates_of_payload in Hpay. rewrite result_of_bind in Hpay.
  destruct payload as [ | | | | | | payload]; try discriminate.
  cbn [py.get ret result_of fst] in Hpay.
  pose proof (collect_rates_entries w _ _ _ _ Hpay) as Hall.
  assert (Hdata : exists data,
             pydict.get "data" payload = Some (PDict data)).
  { destruct (Hall k0 v0 (or_introl eq_refl)) as [[] | (_ & rate & _ & Hc)].
    apply classify_entry_rate in Hc as (d & entry & Hd & Hg & _).
    destruct (pydict.get "data" payload) as [v | ].
    - exists d. now rewrite Hd.
    - inversion Hd; subst. discriminate. }
  destruct Hdata as (data & Hdata). rewrite Hdata in Hall.
  exists ((k0, v0) :: rest), api_key, resp, payload, data.
  repeat (split; [assumption || reflexivity | ]).
  intros k v Hin.
  destruct (Hall k v Hin) as [[] | (Hk & rate & -> & Hc)].
  split; [assumption | ].
  apply classify_entry_rate in Hc as (d & entry & Hd & Hg & Hco).
  inversion Hd; subst. now exists entry, rate.
Qed.

(** The theorem at the same answer. *)
Lemma rates_are_floats_of_provider_entries_witness :
  exists (rated : dict) api_key resp (payload data : dict),
    PDict [("USD", PFloat 1.5%float); ("INR", PFloat 83.5%float)] = PDict rated
    /\ getenv (world_with_rates data_partial) "CURRENCY_API_KEY" = Some api_key
    /\ requests_get (world_with_rates data_partial) currency_tool.currencyapi_url
         (currency_tool.currencyapi_params api_key
            (pystr.upper (pystr.strip "inr"))) = Responds resp
    /\ status_code resp = 200
    /\ json resp = Returned (PDict payload)
    /\ pydict.get "data" payload = Some (PDict data)
    /\ forall k v, In (k, v) rated ->
         In k currency_tool.target_currencies
         /\ exists entry rate,
              pydict.get k data = Some (PDict entry)
              /\ coerced (world_with_rates data_partial) (entry_value entry)
                 = Some rate
              /\ v = PFloat rate.
Proof.
  apply (rates_are_floats_of_provider_entries
           (world_with_rates data_partial) "inr"
           (rates_success "inr"
              [("USD", PFloat 1.5%float); ("INR", PFloat 83.5%float)])).
  - reflexivity.
  - reflexivity.
Defined.

(** C6 as stated fails: an entry without [value] enters [rates] as 0.0, a
    number the provider did not return, and a negative value enters as it
    is; neither is positive. *)
Lemma rates_need_not_be_positive_nor_returned :
  exists info,
    result_of (currency_tool.get_exchange_rates_for_currency
                 (world_with_rates data_odd_values) "EUR")
    = Returned info
    /\ pydict.get "rates" info
       = Some (PDict [("USD", PFloat 0%float); ("GBP", PFloat (-1.5)%float)])
    /\ PrimFloat.ltb 0%float 0%float = false
    /\ PrimFloat.ltb 0%float (-1.5)%float = false
    /\ py.getitem_str data_odd_values "USD"
       = ret (PDict [("code", PStr "USD")])
    /\ pydict.get "value" [("code", PStr "USD")] = @None pyval.
Proof. eexists. repeat split; vm_compute; reflexivity. Qed.

(** ** The aggregator *)

Lemma invoked_app operation t t' :
  invoked operation (t ++ t')%list
  <-> invoked operation t \/ invoked operation t'.
Proof.
  unfold invoked. split.
  - intros [a H]. apply in_app_iff in H as [H | H]; [left | right]; now exists a.
  - intros [[a H] | [a H]]; exists a; apply in_app_iff; [left | right]; exact H.
Qed.

Section AgentFacts.
Variable w : World.

(** The currency resolver returns; a currency code it reports is a [str];
    it does not call the rate fetcher. *)
Lemma currency_run country :
  exists info t,
    currency_tool.get_currency_for_country w country = (Returned info, t)
    /\ (forall v, pydict.get "currency_code" info = Some v ->
                  exists code, v = PStr code)
    /\ ~ invoked "get_exchange_rates_for_currency" t.
Proof.
  destruct (pydict.get (currency_tool._normalize_country country)
              currency_tool.COUNTRY_CURRENCY_MAP) as [mapping | ] eqn:E.
  - exists (local_currency_info country mapping). eexists.
    split; [exact (currency_local_result w country mapping E) | ]. split.
    + intros v H. inversion H. now eexists.
    + intros [a [H | []]]. discriminate.
  - destruct (currency_remote_shape w country E) as (info & Hrun & Hshape).
    exists info. eexists. split; [exact Hrun | ]. split.
    + intros v H.
      destruct Hshape as [(m & ->) | (nm & code & ->)]; inversion H.
      now eexists.
    + intros [a [H | [H | []]]]; discriminate.
Qed.

(** The rate fetcher returns, and its trace starts with its own entry. *)
Lemma exchange_rates_run currency_code :
  exists info t,
    currency_tool.get_exchange_rates_for_currency w currency_code
    = (Returned info, Enter "get_exchange_rates_for_currency" currency_code :: t).
Proof.
  destruct (getenv w "CURRENCY_API_KEY") as [api_key | ] eqn:Ek.
  - destruct (string_dec api_key "") as [-> | Hne].
    + do 2 eexists. apply exchange_rates_without_key. now right.
    + do 2 eexists. exact (exchange_rates_with_key w _ _ Ek Hne).
  - do 2 eexists. apply exchange_rates_without_key. now left.
Qed.

Lemma stock_and_link_quiet country :
  ~ invoked "get_exchange_rates_for_currency" (stock_and_link_trace country).
Proof.
  unfold stock_and_link_trace. intros [a [H | H]]; [discriminate | ].
  apply in_app_iff in H as [H | H].
  - apply history_requests_are_history in H as [s H]. discriminate.
  - destruct (configured_exchanges country) as [ | ex rest]; [destruct H | ].
    destruct (String.eqb _ _); [destruct H | ].
    destruct H as [H | []]. discriminate.
Qed.

(** The run of [build_country_financial_profile], step by step. *)
Lemma build_run country :
  exists currency_info fx_rates t_currency t_fx,
    currency_tool.get_currency_for_country w (pystr.strip country)
    = (Returned currency_info, t_currency)
    /\ match pydict.get "currency_code" currency_info with
       | Some v =>
           exists code,
             v = PStr code
             /\ currency_tool.get_exchange_rates_for_currency w code
                = (Returned fx_rates, t_fx)
       | None => fx_rates = fx_unavailable /\ t_fx = []
       end
    /\ ~ invoked "get_exchange_rates_for_currency" t_currency
    /\ agent.build_country_financial_profile w country
       = (Returned (profile_value w (pystr.strip country) currency_info fx_rates),
          (t_currency ++ t_fx
           ++ stock_and_link_trace (pystr.strip country))%list).
Proof.
  destruct (currency_run (pystr.strip country)) as (info & t1 & E1 & Hstr & Hq).
  assert (Hfx : exists fx t2,
             match pydict.get "currency_code" info with
             | Some v =>
                 exists code,
                   v = PStr code
                   /\ currency_tool.get_exchange_rates_for_currency w code
                      = (Returned fx, t2)
             | None => fx = fx_unavailable /\ t2 = []
             end).
  { destruct (pydict.get "currency_code" info) as [v | ].
    - destruct (Hstr v eq_refl) as [code ->].
      destruct (exchange_rates_run code) as (fx & t & E).
      exists fx. eexists. exists code. split; [reflexivity | exact E].
    - do 2 eexists. split; reflexivity. }
  destruct Hfx as (fx & t2 & Hfx).
  exists info, fx, t1, t2. split; [exact E1 | ]. split; [exact Hfx | ].
  split; [exact Hq | ].
  unfold agent.build_country_financial_profile. cbv zeta.
  rewrite E1. cbn [bind].
  destruct (pydict.get "currency_code" info) as [v | ].
  1: destruct Hfx as (code & -> & E2); cbn [agent.call_with_str]; rewrite E2.
  2: destruct Hfx as [-> ->]; unfold fx_unavailable.
  all: cbn [ret bind app]; rewrite stock_profile_run; cbn [bind].
  all: unfold profile_value, stock_profile_value, main_hq_address,
         google_maps_link, stock_and_link_trace.
  all: destruct (configured_exchanges (pystr.strip country)) as [ | ex rest];
    [ cbn; rewrite ?app_nil_r; reflexivity | ].
  all: cbn [pydict.get String.eqb Ascii.eqb Bool.eqb truthy map py.getitem_0
            priced_exchange py.get ret bind app].
  all: destruct (StockExchange.headquarters_address ex =? "") eqn:Ea;
    cbn [negb agent.call_with_str maps_tool.get_google_maps_link_for_address
         emit ret bind app];
    unfold maps_link; rewrite ?app_nil_r; reflexivity.
Qed.

End AgentFacts.

(** C2, as the code has it.  [build_country_financial_profile] enters the
    rate fetcher if and only if the result of the currency resolver has a
    [currency_code] key.  With the key, [exchange_rates] is the result of
    [get_exchange_rates_for_currency] on that code; without it the fetcher is
    not entered and [exchange_rates] is the one-entry object whose [error]
    is the message of the source, "Could not determine currency code for
    this country; FX rates unavailable.". *)
Theorem rates_fetched_iff_currency_code (w : World) (country : string) :
  exists profile currency_info,
    result_of (agent.build_country_financial_profile w country)
    = Returned profile
    /\ result_of (currency_tool.get_currency_for_country w (pystr.strip country))
       = Returned currency_info
    /\ pydict.get "currency" profile = Some (PDict currency_info)
    /\ (invoked "get_exchange_rates_for_currency"
          (trace_of (agent.build_country_financial_profile w country))
        <-> pydict.has "currency_code" currency_info = true)
    /\ match pydict.get "currency_code" currency_info with
       | Some v =>
           exists code fx_rates,
             v = PStr code
             /\ result_of (currency_tool.get_exchange_rates_for_currency w code)
                = Returned fx_rates
             /\ pydict.get "exchange_rates" profile = Some (PDict fx_rates)
       | None =>
           pydict.get "exchange_rates" profile
           = Some (PDict
                     [("error",
                       PStr "Could not determine currency code for this country; FX rates unavailable.")])
       end.
Proof.
  destruct (build_run w country)
    as (info & fx & t1 & t2 & Ecur & Hfx & Hquiet & Erun).
  rewrite Erun, Ecur. cbn [result_of trace_of fst snd].
  exists (profile_value w (pystr.strip country) info fx), info.
  repeat (split; [reflexivity | ]).
  unfold pydict.has.
  destruct (pydict.get "currency_code" info) as [v | ].
  - destruct Hfx as (code & -> & Efx). split.
    + split; [reflexivity | intros _].
      destruct (exchange_rates_run w code) as (fx' & t & E).
      rewrite E in Efx. inversion Efx; subst.
      apply invoked_app. right. apply invoked_app. left.
      exists code. now left.
    + exists code, fx. rewrite Efx. repeat split.
  - destruct Hfx as [-> ->]. split; [ | reflexivity].
    split; [ | discriminate]. intros H.
    apply invoked_app in H as [H | H]; [contradiction | ].
    cbn [app] in H. exfalso. exact (stock_and_link_quiet _ H).
Qed.

(** C2 as stated fails on the text of the message: for an unknown country
    the currency resolver reports no code, and [exchange_rates] is not the
    object the claim spells out. *)
Lemma fx_unavailable_message_differs :
  exists profile currency_info,
    result_of (agent.build_country_financial_profile world_not_found "Atlantis")
    = Returned profile
    /\ pydict.get "currency" profile = Some (PDict currency_info)
    /\ pydict.has "currency_code" currency_info = false
    /\ pydict.get "exchange_rates" profile
       <> Some (PDict
                  [("error",
                    PStr "could not determine currency code; FX rates unavailable")]).
Proof.
  do 2 eexists. split; [vm_compute; reflexivity | ].
  split; [reflexivity | ]. split; [reflexivity | ].
  cbn. intros H. discriminate H.
Qed.

(** C7, as the code has it.  A result of [get_currency_for_country] without
    [error] has a [source] that is one of two strings: "local_mapping" when
    the normalized country is a key of the static table, and then no request
    is made; "restcountries" when it is not, the currency coming from the
    remote lookup. *)
Theorem currency_source_is_local_mapping_or_restcountries
    (w : World) (country : string) (info : dict) :
  result_of (currency_tool.get_currency_for_country w country) = Returned info ->
  pydict.has "error" info = false ->
  (pydict.has (currency_tool._normalize_country country)
     currency_tool.COUNTRY_CURRENCY_MAP = true
   /\ pydict.get "source" info = Some (PStr "local_mapping")
   /\ trace_of (currency_tool.get_currency_for_country w country)
      = [Enter "get_currency_for_country" country])
  \/ (pydict.has (currency_tool._normalize_country country)
        currency_tool.COUNTRY_CURRENCY_MAP = false
      /\ pydict.get "source" info = Some (PStr "restcountries")
      /\ trace_of (currency_tool.get_currency_for_country w country)
         = [Enter "get_currency_for_country" country;
            HttpGet (currency_tool.restcountries_url country)
              currency_tool.restcountries_params]).
Proof.
  intros Hres Hok. unfold pydict.has.
  destruct (pydict.get (currency_tool._normalize_country country)
              currency_tool.COUNTRY_CURRENCY_MAP) as [mapping | ] eqn:E.
  - left. rewrite (currency_local_result w country mapping E) in *.
    inversion Hres; subst. repeat split.
  - right. destruct (currency_remote_shape w country E) as (info' & Erun & Hshape).
    rewrite Erun in *. inversion Hres; subst info'.
    destruct Hshape as [(m & ->) | (nm & code & ->)]; [discriminate | ].
    repeat split.
Qed.

(** The theorem at a country the static table does not know. *)
Lemma currency_source_witness :
  exists info,
    result_of (currency_tool.get_currency_for_country
                 (world_with_rates data_complete) "France") = Returned info
    /\ pydict.has "error" info = false
    /\ pydict.get "source" info = Some (PStr "restcountries").
Proof.
  exists (remote_currency_info "France" (PStr "Euro") "EUR").
  split; [reflexivity | ]. split; [reflexivity | ].
  destruct (currency_source_is_local_mapping_or_restcountries
              (world_with_rates data_complete) "France"
              (remote_currency_info "France" (PStr "Euro") "EUR")
              eq_refl eq_refl) as [(H & _) | (_ & H & _)].
  - discriminate H.
  - exact H.
Defined.

(** C7 as stated fails on the second value: a currency obtained from the
    remote lookup is reported with the source "restcountries", not
    "remote_lookup". *)
Lemma remote_source_is_not_remote_lookup :
  exists info,
    result_of (currency_tool.get_currency_for_country
                 (world_with_rates data_complete) "France")
    = Returned info
    /\ pydict.has "france" currency_tool.COUNTRY_CURRENCY_MAP = false
    /\ pydict.has "error" info = false
    /\ pydict.get "currency_code" info = Some (PStr "EUR")
    /\ pydict.get "source" info = Some (PStr "restcountries")
    /\ pydict.get "source" info <> Some (PStr "remote_lookup").
Proof.
  eexists. split; [vm_compute; reflexivity | ].
  repeat (split; [reflexivity | ]). cbn. discriminate.
Qed.

(** ** The link builder *)

Lemma maps_link_run (address : string) :
  maps_tool.get_google_maps_link_for_address address
  = (Returned (maps_link address),
     [Enter "get_google_maps_link_for_address" address]).
Proof. reflexivity. Qed.

(** C8.  On the address of the docstring the function returns the link with
    every space encoded as [+], which is what [quote_plus] does; the string
    of the docstring, with [%20], is what [quote] gives.  The claim and the
    docstring state the second, the code computes the first. *)
Theorem wall_street_link_has_plus_for_spaces :
  result_of (maps_tool.get_google_maps_link_for_address
               "11 Wall St, New York, NY 10005, USA")
  = Returned
      "https://www.google.com/maps/search/?api=1&query=11+Wall+St%2C+New+York%2C+NY+10005%2C+USA"
  /\ result_of (maps_tool.get_google_maps_link_for_address
                  "11 Wall St, New York, NY 10005, USA")
     <> Returned
          "https://www.google.com/maps/search/?api=1&query=11%20Wall%20St%2C%20New%20York%2C%20NY%2010005%2C%20USA"
  /\ "https://www.google.com/maps/search/?api=1&query="
     ++ urllib_parse.quote (pystr.strip "11 Wall St, New York, NY 10005, USA") ""
     = "https://www.google.com/maps/search/?api=1&query=11%20Wall%20St%2C%20New%20York%2C%20NY%2010005%2C%20USA".
Proof.
  split; [vm_compute; reflexivity | ].
  split; [ | vm_compute; reflexivity].
  vm_compute. intros H. discriminate H.
Qed.

(** ** The profile of India *)




(** ** Totality *)

Section RemoteFailures.
Variable w : World.

Lemma currency_remote_failure country e :
  pydict.get (currency_tool._normalize_country country)
    currency_tool.COUNTRY_CURRENCY_MAP = None ->
  http_call_raises w (currency_tool.restcountries_url country)
    currency_tool.restcountries_params e ->
  result_of (currency_tool.get_currency_for_country w country)
  = Returned (currency_error country
                ("Exception while resolving currency: " ++ exc_str e)).
Proof.
  intros E H. unfold currency_tool.get_currency_for_country. cbv zeta.
  rewrite E. unfold currency_tool.requests_get_.
  destruct H as [-> | (resp & -> & Hs & Hj)]; [reflexivity | ].
  cbn [emit ret bind try_except app]. rewrite Hs, Hj. reflexivity.
Qed.

Lemma rates_remote_failure currency_code api_key e :
  getenv w "CURRENCY_API_KEY" = Some api_key ->
  api_key <> "" ->
  http_call_raises w currency_tool.currencyapi_url
    (currency_tool.currencyapi_params api_key
       (pystr.upper (pystr.strip currency_code))) e ->
  result_of (currency_tool.get_exchange_rates_for_currency w currency_code)
  = Returned (rates_error currency_code
                ("Exception while calling CurrencyAPI: " ++ exc_str e)).
Proof.
  intros Hk Hne H. rewrite (exchange_rates_with_key w _ _ Hk Hne).
  cbn [result_of fst]. unfold rates_answer.
  destruct H as [-> | (resp & -> & Hs & Hj)]; [reflexivity | ].
  rewrite Hs, Hj. reflexivity.
Qed.

Lemma price_remote_failure symbol e :
  history_call_raises w symbol e -> latest_price w symbol = PNone.
Proof.
  unfold latest_price. intros [-> | (hist & -> & -> & ->)]; reflexivity.
Qed.

End RemoteFailures.

(** A [str] with a lone surrogate: the codec refuses it, nothing in
    [get_google_maps_link_for_address] handles the exception, and the call
    raises. *)
Lemma maps_call_with_surrogate before k rest :
  exists message,
    maps_tool.get_google_maps_link_for_address (Lone before k rest)
    = (Raised (Exn UnicodeEncodeError message),
       [Enter "get_google_maps_link_for_address"
          (unicode.render (Lone before k rest))]).
Proof. eexists. reflexivity. Qed.

(** The messages of the codec, on three strings: a surrogate alone, one
    after three characters (the second of two bytes), and three in a row
    after trimming. *)
Lemma encode_utf8_messages :
  result_of (py.encode_utf8 (Lone "" 0 ""))
  = Raised (Exn UnicodeEncodeError
              "'utf-8' codec can't encode character '\ud800' in position 0: surrogates not allowed")
  /\ result_of (py.encode_utf8 (Lone ("a" ++ e_acute ++ " ") 2047 "z"))
     = Raised (Exn UnicodeEncodeError
                 "'utf-8' codec can't encode character '\udfff' in position 3: surrogates not allowed")
  /\ result_of (py.encode_utf8
                  (unicode.strip (Lone " " 0 (Lone "" 1 (Lone "" 2 " ")))))
     = Raised (Exn UnicodeEncodeError
                 "'utf-8' codec can't encode characters in position 0-2: surrogates not allowed")
  /\ unicode.render (Lone "" 0 "")
     = String (ascii_of_N 237) (String (ascii_of_N 160) (String (ascii_of_N 128) "")).
Proof. repeat split; vm_compute; reflexivity. Qed.

(** C1 as stated fails for [get_google_maps_link_for_address]: on the
    string made of the one code point U+D800 the call raises
    UnicodeEncodeError, so it does not return for every string. *)
Lemma maps_link_raises_on_lone_surrogate :
  result_of (maps_tool.get_google_maps_link_for_address (Lone "" 0 ""))
  = Raised (Exn UnicodeEncodeError
              "'utf-8' codec can't encode character '\ud800' in position 0: surrogates not allowed")
  /\ ~ (forall address : str, exists url,
          result_of (maps_tool.get_google_maps_link_for_address address)
          = Returned url).
Proof.
  split; [vm_compute; reflexivity | ].
  intros H. destruct (H (Lone "" 0 "")) as [url E]. discriminate E.
Qed.

(** C1.  [get_currency_for_country], [get_exchange_rates_for_currency],
    [get_country_stock_profile] and [build_country_financial_profile]
    composed from the four operations return for every input and every
    behaviour of the providers: none raises.
    [get_google_maps_link_for_address] returns for every address that UTF-8
    can encode and raises UnicodeEncodeError for every address that holds a
    lone surrogate; the composed operation calls it with the addresses of
    the catalogue only.  An exception raised by a remote call of the country
    provider or of the rates provider becomes the [error] field of the
    result; one raised by the market-data call of an index becomes the price
    [None] of that index. *)
Theorem component_operations_total_but_for_surrogates :
  (forall w country, exists info,
      result_of (currency_tool.get_currency_for_country w country)
      = Returned info)
  /\ (forall w currency_code, exists info,
        result_of (currency_tool.get_exchange_rates_for_currency w currency_code)
        = Returned info)
  /\ (forall w country, exists profile,
        result_of (stock_tool.get_country_stock_profile w country)
        = Returned profile)
  /\ (forall address : string, exists url,
        result_of (maps_tool.get_google_maps_link_for_address address)
        = Returned url)
  /\ (forall before k rest, exists e,
        result_of (maps_tool.get_google_maps_link_for_address
                     (Lone before k rest))
        = Raised e
        /\ exc_type e = UnicodeEncodeError)
  /\ (forall w country, exists profile,
        result_of (agent.build_country_financial_profile w country)
        = Returned profile)
  /\ (forall w country e,
        pydict.has (currency_tool._normalize_country country)
          currency_tool.COUNTRY_CURRENCY_MAP = false ->
        http_call_raises w (currency_tool.restcountries_url country)
          currency_tool.restcountries_params e ->
        exists info,
          result_of (currency_tool.get_currency_for_country w country)
          = Returned info
          /\ pydict.get "error" info
             = Some (PStr ("Exception while resolving currency: " ++ exc_str e)))
  /\ (forall w currency_code api_key e,
        getenv w "CURRENCY_API_KEY" = Some api_key ->
        api_key <> "" ->
        http_call_raises w currency_tool.currencyapi_url
          (currency_tool.currencyapi_params api_key
             (pystr.upper (pystr.strip currency_code))) e ->
        exists info,
          result_of (currency_tool.get_exchange_rates_for_currency w currency_code)
          = Returned info
          /\ pydict.get "error" info
             = Some (PStr ("Exception while calling CurrencyAPI: " ++ exc_str e)))
  /\ (forall w symbol e,
        history_call_raises w symbol e ->
        result_of (stock_tool._fetch_latest_price w symbol) = Returned PNone)
  /\ (forall w country ex idx e,
        In ex (configured_exchanges country) ->
        In idx (StockExchange.indices ex) ->
        history_call_raises w (StockIndex.symbol idx) e ->
        exists listed,
          exchanges_of w country = Some (PList listed)
          /\ In (priced_exchange w ex) listed
          /\ In (PDict [ ("symbol", PStr (StockIndex.symbol idx));
                         ("name", PStr (StockIndex.name idx));
                         ("last_price", PNone) ])
                (map (priced_index w) (StockExchange.indices ex))).
Proof.
  split; [ | split; [ | split; [ | split; [ | split; [ | split;
    [ | split; [ | split; [ | split]]]]]]]].
  - intros w country.
    destruct (currency_run w country) as (info & t & E & _).
    exists info. now rewrite E.
  - intros w code.
    destruct (exchange_rates_run w code) as (info & t & E).
    exists info. now rewrite E.
  - intros w country. eexists. apply stock_profile_result.
  - intros address. eexists. now rewrite maps_link_run.
  - intros before k rest.
    destruct (maps_call_with_surrogate before k rest) as [message ->].
    eexists. split; reflexivity.
  - intros w country.
    destruct (build_run w country) as (info & fx & t1 & t2 & _ & _ & _ & E).
    eexists. now rewrite E.
  - intros w country e Hno Hraise. unfold pydict.has in Hno.
    destruct (pydict.get _ currency_tool.COUNTRY_CURRENCY_MAP) eqn:E;
      [discriminate | ].
    rewrite (currency_remote_failure w country e E Hraise).
    eexists. split; reflexivity.
  - intros w code api_key e Hk Hne Hraise.
    rewrite (rates_remote_failure w code api_key e Hk Hne Hraise).
    eexists. split; reflexivity.
  - intros w symbol e Hraise.
    rewrite fetch_latest_price_run. cbn [result_of fst].
    now rewrite (price_remote_failure w symbol e Hraise).
  - intros w country ex idx e Hex Hidx Hraise.
    rewrite exchanges_of_eq. eexists. split; [reflexivity | ].
    split; [now apply in_map | ].
    rewrite <- (price_remote_failure w _ e Hraise).
    exact (in_map (priced_index w) _ _ Hidx).
Qed.

(** The theorem at an unknown country in a world where nothing answers. *)
Lemma component_operations_witness :
  exists info,
    result_of (currency_tool.get_currency_for_country world_offline "Atlantis")
    = Returned info
    /\ pydict.get "error" info
       = Some (PStr ("Exception while resolving currency: "
                     ++ exc_str connection_error)).
Proof.
  destruct component_operations_total_but_for_surrogates
    as (_ & _ & _ & _ & _ & _ & H & _).
  apply (H world_offline "Atlantis" connection_error).
  - reflexivity.
  - left. reflexivity.
Defined.

(** ** Trimming and case *)

Lemma rstrip_all_space s : all_space s = true -> pystr.rstrip s = "".
Proof.
  induction s as [ | c r IH]; [reflexivity | ].
  cbn [all_space string_forall]. intros H.
  apply andb_true_iff in H as [Hc Hr].
  cbn [pystr.rstrip]. rewrite (IH Hr), Hc. reflexivity.
Qed.

Lemma lstrip_all_space s : all_space s = true -> pystr.lstrip s = "".
Proof.
  induction s as [ | c r IH]; [reflexivity | ].
  cbn [all_space string_forall]. intros H.
  apply andb_true_iff in H as [Hc Hr].
  cbn [pystr.lstrip]. rewrite Hc. exact (IH Hr).
Qed.

Lemma lstrip_padding left s :
  all_space left = true -> pystr.lstrip (left ++ s) = pystr.lstrip s.
Proof.
  induction left as [ | c r IH]; [reflexivity | ].
  cbn [all_space string_forall]. intros H.
  apply andb_true_iff in H as [Hc Hr].
  cbn [append pystr.lstrip]. rewrite Hc. exact (IH Hr).
Qed.

Lemma rstrip_padding s right :
  all_space right = true -> pystr.rstrip (s ++ right) = pystr.rstrip s.
Proof.
  intros H. induction s as [ | c r IH].
  - now apply rstrip_all_space.
  - cbn [append pystr.rstrip]. now rewrite IH.
Qed.

(** What [lstrip] leaves is empty or starts with a character that is not
    whitespace. *)
Lemma lstrip_head s :
  pystr.lstrip s = ""
  \/ exists c r, pystr.lstrip s = String c r /\ pystr.is_space c = false.
Proof.
  induction s as [ | c r IH]; [now left | ].
  cbn [pystr.lstrip]. destruct (pystr.is_space c) eqn:E; [exact IH | ].
  right. now exists c, r.
Qed.

Lemma lstrip_app s t :
  pystr.lstrip (s ++ t)
  = match pystr.lstrip s with
    | EmptyString => pystr.lstrip t
    | kept => kept ++ t
    end.
Proof.
  induction s as [ | c r IH]; [cbn; now destruct (pystr.lstrip t) | ].
  cbn [append pystr.lstrip]. destruct (pystr.is_space c); [exact IH | reflexivity].
Qed.

Lemma rstrip_keeps_head c r :
  pystr.is_space c = false ->
  exists r', pystr.rstrip (String c r) = String c r'.
Proof.
  intros H. cbn [pystr.rstrip].
  destruct (pystr.rstrip r); rewrite ?H; now eexists.
Qed.

Lemma rstrip_cons c r :
  pystr.rstrip (String c r)
  = match pystr.rstrip r with
    | EmptyString => if pystr.is_space c then EmptyString else String c EmptyString
    | r' => String c r'
    end.
Proof. reflexivity. Qed.

Lemma rstrip_idempotent s : pystr.rstrip (pystr.rstrip s) = pystr.rstrip s.
Proof.
  induction s as [ | c r IH]; [reflexivity | ].
  rewrite rstrip_cons. destruct (pystr.rstrip r) as [ | c' r'] eqn:E.
  - destruct (pystr.is_space c) eqn:Hc; [reflexivity | ].
    rewrite rstrip_cons. cbn [pystr.rstrip]. now rewrite Hc.
  - rewrite rstrip_cons, IH. reflexivity.
Qed.

Lemma strip_padding left s right :
  all_space left = true -> all_space right = true ->
  pystr.strip (left ++ s ++ right) = pystr.strip s.
Proof.
  intros Hl Hr. unfold pystr.strip.
  rewrite (lstrip_padding left _ Hl), lstrip_app.
  destruct (pystr.lstrip s) as [ | c r] eqn:E.
  - rewrite (lstrip_all_space _ Hr). reflexivity.
  - now apply rstrip_padding.
Qed.

Lemma strip_idempotent s : pystr.strip (pystr.strip s) = pystr.strip s.
Proof.
  unfold pystr.strip.
  destruct (lstrip_head s) as [-> | (c & r & -> & Hc)]; [reflexivity | ].
  destruct (rstrip_keeps_head c r Hc) as [r' E]. rewrite E.
  cbn [pystr.lstrip]. rewrite Hc, <- E. apply rstrip_idempotent.
Qed.

Lemma is_space_lower_char c :
  pystr.is_space (pystr.lower_char c) = pystr.is_space c.
Proof.
  destruct c as [[] [] [] [] [] [] [] []]; reflexivity.
Qed.

Lemma lower_char_idempotent c :
  pystr.lower_char (pystr.lower_char c) = pystr.lower_char c.
Proof.
  destruct c as [[] [] [] [] [] [] [] []]; reflexivity.
Qed.

Lemma lstrip_lower s :
  pystr.lstrip (pystr.lower s) = pystr.lower (pystr.lstrip s).
Proof.
  induction s as [ | c r IH]; [reflexivity | ].
  cbn [pystr.lower pystr.map_chars pystr.lstrip].
  rewrite is_space_lower_char. destruct (pystr.is_space c); [exact IH | reflexivity].
Qed.

Lemma rstrip_lower s :
  pystr.rstrip (pystr.lower s) = pystr.lower (pystr.rstrip s).
Proof.
  induction s as [ | c r IH]; [reflexivity | ].
  cbn [pystr.lower pystr.map_chars pystr.rstrip].
  fold (pystr.lower r). rewrite IH, is_space_lower_char.
  destruct (pystr.rstrip r); [destruct (pystr.is_space c) | ]; reflexivity.
Qed.

Lemma strip_lower s :
  pystr.strip (pystr.lower s) = pystr.lower (pystr.strip s).
Proof. unfold pystr.strip. now rewrite lstrip_lower, rstrip_lower. Qed.

Lemma lower_idempotent s : pystr.lower (pystr.lower s) = pystr.lower s.
Proof.
  induction s as [ | c r IH]; [reflexivity | ].
  cbn [pystr.lower pystr.map_chars]. fold (pystr.lower r).
  fold (pystr.lower (pystr.lower r)). now rewrite lower_char_idempotent, IH.
Qed.

(** The normalized name of a country is the trimmed form of its lower-case
    spelling. *)
Lemma normalize_strip_lower country :
  stock_tool._normalize_country country = pystr.strip (pystr.lower country).
Proof. unfold stock_tool._normalize_country. now rewrite strip_lower. Qed.

Lemma normalize_strip country :
  stock_tool._normalize_country (pystr.strip country)
  = stock_tool._normalize_country country.
Proof. unfold stock_tool._normalize_country. now rewrite strip_idempotent. Qed.

(** ** Further properties: names of countries *)

(** X1.  The lookups of both tools ignore ASCII case and surrounding
    whitespace: a spelling that differs from a country name only in case,
    padded with whitespace on either side, has the same normalized name, the
    same entry in the currency table and the same exchanges. *)
Theorem lookups_ignore_case_and_padding
    (w : World) (country other left right : string) :
  all_space left = true ->
  all_space right = true ->
  pystr.lower other = pystr.lower country ->
  stock_tool._normalize_country (left ++ other ++ right)
  = stock_tool._normalize_country country
  /\ currency_tool._normalize_country (left ++ other ++ right)
     = currency_tool._normalize_country country
  /\ pydict.get (currency_tool._normalize_country (left ++ other ++ right))
       currency_tool.COUNTRY_CURRENCY_MAP
     = pydict.get (currency_tool._normalize_country country)
         currency_tool.COUNTRY_CURRENCY_MAP
  /\ exchanges_of w (left ++ other ++ right) = exchanges_of w country.
Proof.
  intros Hl Hr Hcase.
  assert (E : stock_tool._normalize_country (left ++ other ++ right)
              = stock_tool._normalize_country country).
  { unfold stock_tool._normalize_country.
    rewrite (strip_padding left other right Hl Hr).
    now rewrite <- !strip_lower, Hcase. }
  split; [exact E | ]. split; [exact E | ].
  split; [unfold currency_tool._normalize_country;
          unfold stock_tool._normalize_country in E; now rewrite E | ].
  rewrite !exchanges_of_eq. unfold configured_exchanges.
  unfold stock_tool._resolve_profile_key. now rewrite E.
Qed.

(** The theorem at "  ENGLAND" followed by a line feed. *)
Lemma lookups_ignore_case_and_padding_witness :
  exchanges_of world_offline
    ("  " ++ "ENGLAND" ++ String (ascii_of_N 10) "")
  = exchanges_of world_offline "England".
Proof.
  apply (lookups_ignore_case_and_padding world_offline "England" "ENGLAND"
           "  " (String (ascii_of_N 10) "")); reflexivity.
Defined.

(** X2.  Normalizing a name twice is normalizing it once, and every key of
    the currency table and of the stock catalog is a normalized name: no
    entry is out of reach of a lookup. *)
Theorem normalized_names_are_fixed_points :
  (forall country,
      stock_tool._normalize_country (stock_tool._normalize_country country)
      = stock_tool._normalize_country country)
  /\ (forall key, In key (pydict.keys currency_tool.COUNTRY_CURRENCY_MAP) ->
                  currency_tool._normalize_country key = key)
  /\ (forall key, In key (pydict.keys stock_tool.COUNTRY_STOCK_PROFILE) ->
                  stock_tool._normalize_country key = key).
Proof.
  split; [ | split].
  - intros country. unfold stock_tool._normalize_country.
    rewrite <- strip_lower, lower_idempotent, strip_lower.
    now rewrite strip_idempotent.
  - intros key H. cbn in H.
    repeat (destruct H as [<- | H]; [reflexivity | ]). destruct H.
  - intros key H. cbn in H.
    repeat (destruct H as [<- | H]; [reflexivity | ]). destruct H.
Qed.

(** ** Further properties: the stock profile *)

Lemma catalog_lists key exchanges :
  pydict.get key stock_tool.COUNTRY_STOCK_PROFILE = Some exchanges ->
  exchanges = []
  \/ In key ["india"; "united states"; "japan"; "united kingdom";
             "south korea"; "china"].
Proof.
  intros H. apply get_in in H. cbn in H.
  repeat (destruct H as [H | H];
          [inversion H; subst; (now left) || (right; cbn; tauto) | ]).
  destruct H.
Qed.

(** X3.  A country has exchanges exactly when its normalized name is one of
    eleven: the six keys of the catalog whose list is not empty and the five
    aliases "usa", "united states of america", "uk", "great britain" and
    "england". *)
Theorem configured_iff_supported (country : string) :
  configured_exchanges country <> []
  <-> In (stock_tool._normalize_country country) supported_countries.
Proof.
  unfold configured_exchanges, stock_tool._resolve_profile_key.
  set (norm := stock_tool._normalize_country country).
  split.
  - destruct (pydict.get norm stock_tool.COUNTRY_STOCK_PROFILE)
      as [[ | ex rest] | ] eqn:Eg.
    + destruct (pystr.mem norm ["usa"; "united states of america"]) eqn:E1.
      { apply mem_in in E1. intros _. cbn in E1. cbn. tauto. }
      destruct (pystr.mem norm ["uk"; "great britain"; "england"]) eqn:E2.
      { apply mem_in in E2. intros _. cbn in E2. cbn. tauto. }
      rewrite Eg. congruence.
    + intros _. destruct (catalog_lists _ _ Eg) as [H | H]; [discriminate | ].
      cbn in H. cbn. tauto.
    + destruct (pystr.mem norm ["usa"; "united states of america"]) eqn:E1.
      { apply mem_in in E1. intros _. cbn in E1. cbn. tauto. }
      destruct (pystr.mem norm ["uk"; "great britain"; "england"]) eqn:E2.
      { apply mem_in in E2. intros _. cbn in E2. cbn. tauto. }
      rewrite Eg. congruence.
  - intros H. cbn in H.
    repeat (destruct H as [<- | H]; [discriminate | ]). destruct H.
Qed.

(** X4.  [get_country_stock_profile] asks the market-data provider for the
    one-day history of every index of every configured exchange, once each
    and in the order of the catalog, and for nothing else; for a country
    without exchanges the list is empty and it asks for nothing. *)
Theorem stock_profile_requests (w : World) (country : string) :
  trace_of (stock_tool.get_country_stock_profile w country)
  = Enter "get_country_stock_profile" country
      :: map (fun idx => YfHistory (StockIndex.symbol idx) "1d")
             (flat_map StockExchange.indices (configured_exchanges country)).
Proof.
  rewrite stock_profile_run. cbn [trace_of snd].
  f_equal. unfold history_requests.
  induction (configured_exchanges country) as [ | ex rest IH];
    [reflexivity | ].
  cbn [flat_map]. now rewrite map_app, IH.
Qed.

(** X5.  [_fetch_latest_price] makes one request and always returns: a
    float when the provider gives a frame that is not empty and whose last
    close reads as a float, and [None] in every other case (no frame, an
    empty frame, an exception from the provider or from the reading). *)
Theorem fetch_latest_price_cases (w : World) (symbol : string) :
  exists price,
    stock_tool._fetch_latest_price w symbol
    = (Returned price, [YfHistory symbol "1d"])
    /\ (forall close,
          price = PFloat close
          <-> exists hist,
                yf_history w symbol "1d" = History hist
                /\ empty hist = false
                /\ last_close hist = Returned close)
    /\ (price = PNone \/ exists close, price = PFloat close).
Proof.
  exists (latest_price w symbol). split; [apply fetch_latest_price_run | ].
  unfold latest_price.
  destruct (yf_history w symbol "1d") as [e | | hist] eqn:E.
  - split; [ | now left]. intros close. split; [discriminate | ].
    intros (h & H & _). discriminate.
  - split; [ | now left]. intros close. split; [discriminate | ].
    intros (h & H & _). discriminate.
  - destruct (empty hist) eqn:Ee.
    + split; [ | now left]. intros close. split; [discriminate | ].
      intros (h & H & He & _). inversion H; subst. congruence.
    + destruct (last_close hist) as [c | e] eqn:Ec.
      * split; [ | right; now exists c]. intros close. split.
        -- intros H. inversion H; subst. now exists hist.
        -- intros (h & H & _ & Hc). inversion H; subst.
           rewrite Ec in Hc. now inversion Hc.
      * split; [ | now left]. intros close. split; [discriminate | ].
        intros (h & H & _ & Hc). inversion H; subst. congruence.
Qed.

(** ** Further properties: the currency resolver *)

(** X6.  A result of [get_currency_for_country] carries the trimmed input
    as [country] and exactly one of [currency_code] and [error]; [source]
    and [currency_name] come with the code.  At most one request is sent,
    and none when the static table knows the country. *)
Theorem currency_info_invariant (w : World) (country : string) :
  exists info,
    result_of (currency_tool.get_currency_for_country w country) = Returned info
    /\ pydict.get "country" info = Some (PStr (pystr.strip country))
    /\ pydict.has "currency_code" info = negb (pydict.has "error" info)
    /\ pydict.has "source" info = pydict.has "currency_code" info
    /\ pydict.has "currency_name" info = pydict.has "currency_code" info
    /\ filter is_http (trace_of (currency_tool.get_currency_for_country w country))
       = if pydict.has (currency_tool._normalize_country country)
              currency_tool.COUNTRY_CURRENCY_MAP
         then []
         else [HttpGet (currency_tool.restcountries_url country)
                 currency_tool.restcountries_params].
Proof.
  unfold pydict.has at 7.
  destruct (pydict.get (currency_tool._normalize_country country)
              currency_tool.COUNTRY_CURRENCY_MAP) as [mapping | ] eqn:E.
  - rewrite (currency_local_result w country mapping E).
    eexists. repeat split.
  - destruct (currency_remote_shape w country E) as (info & -> & Hshape).
    exists info. split; [reflexivity | ].
    destruct Hshape as [(m & ->) | (nm & code & ->)]; repeat split.
Qed.

(** X7.  When the static table does not know the country and the provider
    answers with a status other than 200, the result is the error that
    names the status; the body of the answer is not read. *)
Theorem currency_status_error (w : World) (country : string) (resp : Response) :
  pydict.get (currency_tool._normalize_country country)
    currency_tool.COUNTRY_CURRENCY_MAP = None ->
  requests_get w (currency_tool.restcountries_url country)
    currency_tool.restcountries_params = Responds resp ->
  status_code resp <> 200 ->
  result_of (currency_tool.get_currency_for_country w country)
  = Returned
      (currency_error country
         ("Failed to resolve currency via RestCountries (status "
          ++ pystr.of_int (status_code resp) ++ ")."))%string.
Proof.
  intros E Hreq Hst. unfold currency_tool.get_currency_for_country. cbv zeta.
  rewrite E. unfold currency_tool.requests_get_. rewrite Hreq.
  cbn [emit ret bind try_except app].
  apply Z.eqb_neq in Hst. rewrite Hst. reflexivity.
Qed.

(** The theorem at an unknown country, answered with 404. *)
Lemma currency_status_error_witness :
  result_of (currency_tool.get_currency_for_country world_not_found "Atlantis")
  = Returned
      (currency_error "Atlantis"
         "Failed to resolve currency via RestCountries (status 404).").
Proof.
  apply (currency_status_error world_not_found "Atlantis"
           {| status_code := 404; text := "Not Found";
              json := Raised (Exn ValueError "Expecting value") |}).
  - reflexivity.
  - reflexivity.
  - discriminate.
Defined.

(** X8.  When the provider answers with status 200 and a document that is
    false in Python ([null], [false], zero, an empty string, list or
    object), the result is the error "No country data returned from
    RestCountries.". *)
Theorem currency_empty_answer
    (w : World) (country : string) (resp : Response) (data : pyval) :
  pydict.get (currency_tool._normalize_country country)
    currency_tool.COUNTRY_CURRENCY_MAP = None ->
  requests_get w (currency_tool.restcountries_url country)
    currency_tool.restcountries_params = Responds resp ->
  status_code resp = 200 ->
  json resp = Returned data ->
  truthy data = false ->
  result_of (currency_tool.get_currency_for_country w country)
  = Returned
      (currency_error country "No country data returned from RestCountries.").
Proof.
  intros E Hreq Hst Hj Ht. unfold currency_tool.get_currency_for_country.
  cbv zeta. rewrite E. unfold currency_tool.requests_get_. rewrite Hreq.
  cbn [emit ret bind try_except app lift]. rewrite Hst, Hj. cbn [Z.eqb Pos.eqb negb].
  cbn [bind app]. rewrite Ht. reflexivity.
Qed.

(** The theorem at an empty list of countries. *)
Lemma currency_empty_answer_witness :
  result_of (currency_tool.get_currency_for_country
               (world_country (ok_response (PList []))) "Atlantis")
  = Returned
      (currency_error "Atlantis" "No country data returned from RestCountries.").
Proof.
  apply (currency_empty_answer (world_country (ok_response (PList [])))
           "Atlantis"
           {| status_code := 200; text := ""; json := Returned (PList []) |}
           (PList [])); reflexivity.
Defined.

(** X9.  When the first country of the answer is an object without
    [currencies], or with [currencies] that is false in Python ([null], an
    empty object), the result is the error "No currency information
    available for this country."; the other countries of the answer are not
    looked at. *)
Theorem currency_no_currency_entry
    (w : World) (country : string) (resp : Response)
    (first : dict) (others : list pyval) :
  pydict.get (currency_tool._normalize_country country)
    currency_tool.COUNTRY_CURRENCY_MAP = None ->
  requests_get w (currency_tool.restcountries_url country)
    currency_tool.restcountries_params = Responds resp ->
  status_code resp = 200 ->
  json resp = Returned (PList (PDict first :: others)) ->
  match pydict.get "currencies" first with
  | Some currencies => truthy currencies = false
  | None => True
  end ->
  result_of (currency_tool.get_currency_for_country w country)
  = Returned
      (currency_error country
         "No currency information available for this country.").
Proof.
  intros E Hreq Hst Hj Hc. unfold currency_tool.get_currency_for_country.
  cbv zeta. rewrite E. unfold currency_tool.requests_get_. rewrite Hreq.
  cbn [emit ret bind try_except app lift]. rewrite Hst, Hj. cbn [Z.eqb Pos.eqb negb].
  cbn [bind app truthy negb py.getitem_0 py.get ret].
  destruct (pydict.get "currencies" first) as [currencies | ].
  - rewrite Hc. reflexivity.
  - reflexivity.
Qed.

(** The theorem at a country whose entry has a name only. *)
Lemma currency_no_currency_entry_witness :
  result_of (currency_tool.get_currency_for_country
               (world_country
                  (ok_response (PList [PDict [("name", PStr "Antarctica")]])))
               "Antarctica")
  = Returned
      (currency_error "Antarctica"
         "No currency information available for this country.").
Proof.
  apply (currency_no_currency_entry
           (world_country
              (ok_response (PList [PDict [("name", PStr "Antarctica")]])))
           "Antarctica"
           {| status_code := 200; text := "";
              json := Returned (PList [PDict [("name", PStr "Antarctica")]]) |}
           [("name", PStr "Antarctica")] []); try reflexivity; exact I.
Defined.

(** X10.  When the first country of the answer lists currencies, the first
    of them is reported, with its [name] (the empty string when it has
    none); the currencies after it and the countries after the first do not
    count. *)
Theorem first_currency_wins
    (w : World) (country : string) (resp : Response)
    (first : dict) (others : list pyval)
    (code : string) (info : dict) (more : dict) :
  pydict.get (currency_tool._normalize_country country)
    currency_tool.COUNTRY_CURRENCY_MAP = None ->
  requests_get w (currency_tool.restcountries_url country)
    currency_tool.restcountries_params = Responds resp ->
  status_code resp = 200 ->
  json resp = Returned (PList (PDict first :: others)) ->
  pydict.get "currencies" first = Some (PDict ((code, PDict info) :: more)) ->
  result_of (currency_tool.get_currency_for_country w country)
  = Returned
      (remote_currency_info country
         match pydict.get "name" info with
         | Some currency_name => currency_name
         | None => PStr ""
         end
         code).
Proof.
  intros E Hreq Hst Hj Hc. unfold currency_tool.get_currency_for_country.
  cbv zeta. rewrite E. unfold currency_tool.requests_get_. rewrite Hreq.
  cbn [emit ret bind try_except app lift]. rewrite Hst, Hj. cbn [Z.eqb Pos.eqb negb].
  cbn [bind app truthy negb py.getitem_0 py.get ret]. rewrite Hc.
  reflexivity.
Qed.

(** The theorem at a country with two currencies. *)
Lemma first_currency_wins_witness :
  result_of (currency_tool.get_currency_for_country
               (world_country (ok_response (PList [PDict two_currencies])))
               "Panama")
  = Returned (remote_currency_info "Panama" (PStr "Panamanian balboa") "PAB").
Proof.
  apply (first_currency_wins
           (world_country (ok_response (PList [PDict two_currencies])))
           "Panama"
           {| status_code := 200; text := "";
              json := Returned (PList [PDict two_currencies]) |}
           two_currencies [] "PAB"
           [("name", PStr "Panamanian balboa")]
           [("USD", PDict [("name", PStr "United States dollar")])]);
    reflexivity.
Defined.

(** ** Further properties: the exchange-rate fetcher *)

(** X11.  [get_exchange_rates_for_currency] sends no request when the key
    is unset or empty, and then returns the error that says so; with a key
    it sends exactly one request, which carries the key, the base currency
    in upper case without surrounding whitespace, and the four targets. *)
Theorem exchange_rates_requests (w : World) (currency_code : string) :
  match getenv w "CURRENCY_API_KEY" with
  | None | Some EmptyString =>
      currency_tool.get_exchange_rates_for_currency w currency_code
      = (Returned (rates_error currency_code key_missing_message),
         [Enter "get_exchange_rates_for_currency" currency_code])
  | Some api_key =>
      trace_of (currency_tool.get_exchange_rates_for_currency w currency_code)
      = [Enter "get_exchange_rates_for_currency" currency_code;
         HttpGet "https://api.currencyapi.com/v3/latest"
           [ ("apikey", api_key);
             ("base_currency", pystr.upper (pystr.strip currency_code));
             ("currencies", "USD,INR,GBP,EUR") ]]
  end.
Proof.
  destruct (getenv w "CURRENCY_API_KEY") as [[ | c key] | ] eqn:E.
  - apply exchange_rates_without_key. now right.
  - rewrite (exchange_rates_with_key w currency_code (String c key) E)
      by discriminate.
    reflexivity.
  - apply exchange_rates_without_key. now left.
Qed.

Lemma rates_answer_base w api_key code code' :
  pystr.upper (pystr.strip code) = pystr.upper (pystr.strip code') ->
  rates_answer w api_key code = rates_answer w api_key code'.
Proof.
  intros H. unfold rates_answer, rates_error, rates_success. now rewrite H.
Qed.

(** X12.  The result of [get_exchange_rates_for_currency] depends on its
    argument only through the base currency, the argument trimmed and put
    in upper case: two spellings of one base give the same result, and
    [base_currency] is that base whatever the outcome. *)
Theorem exchange_rates_depend_on_base
    (w : World) (currency_code other : string) :
  pystr.upper (pystr.strip other) = pystr.upper (pystr.strip currency_code) ->
  result_of (currency_tool.get_exchange_rates_for_currency w other)
  = result_of (currency_tool.get_exchange_rates_for_currency w currency_code)
  /\ exists info,
       result_of (currency_tool.get_exchange_rates_for_currency w currency_code)
       = Returned info
       /\ pydict.get "base_currency" info
          = Some (PStr (pystr.upper (pystr.strip currency_code))).
Proof.
  intros H.
  destruct (getenv w "CURRENCY_API_KEY") as [api_key | ] eqn:Ek.
  - destruct (string_dec api_key "") as [-> | Hne].
    + rewrite !exchange_rates_without_key by now right.
      cbn [result_of fst]. unfold rates_error. rewrite H.
      split; [reflexivity | ]. eexists. split; reflexivity.
    + rewrite !(exchange_rates_with_key w _ api_key Ek Hne).
      cbn [result_of fst]. rewrite (rates_answer_base w api_key _ _ H).
      split; [reflexivity | ]. eexists. split; [reflexivity | ].
      unfold rates_answer, rates_error, rates_success.
      destruct (requests_get w _ _) as [e | resp]; [reflexivity | ].
      destruct (status_code resp =? 200)%Z; [ | reflexivity].
      destruct (json resp) as [payload | e]; [ | reflexivity].
      destruct (rates_of_payload w payload) as [[ | r rs] | e]; reflexivity.
  - rewrite !exchange_rates_without_key by now left.
    cbn [result_of fst]. unfold rates_error. rewrite H.
    split; [reflexivity | ]. eexists. split; reflexivity.
Qed.

(** The theorem at " inr" and "INR ". *)
Lemma exchange_rates_depend_on_base_witness :
  result_of (currency_tool.get_exchange_rates_for_currency
               (world_with_rates data_partial) " inr")
  = result_of (currency_tool.get_exchange_rates_for_currency
                 (world_with_rates data_partial) "INR ").
Proof.
  apply (exchange_rates_depend_on_base (world_with_rates data_partial)
           "INR " " inr").
  reflexivity.
Defined.

Lemma take_len n s :
  pystr.len (pystr.take n s) = Nat.min n (pystr.len s).
Proof.
  revert n. induction s as [ | c r IH]; intros n.
  - cbn. now rewrite Nat.min_0_r.
  - cbn [pystr.take pystr.len].
    destruct (pystr.is_continuation c) eqn:E.
    + cbn [pystr.len]. rewrite E. apply IH.
    + destruct n as [ | n]; [reflexivity | ].
      cbn [pystr.len]. rewrite E, IH. reflexivity.
Qed.

Lemma take_whole n s : (pystr.len s <= n)%nat -> pystr.take n s = s.
Proof.
  revert n. induction s as [ | c r IH]; intros n H; [reflexivity | ].
  cbn [pystr.take pystr.len] in *.
  destruct (pystr.is_continuation c).
  - f_equal. now apply IH.
  - destruct n as [ | n]; [inversion H | ].
    f_equal. apply IH. now apply le_S_n.
Qed.

Lemma take_prefix n s : exists cut, s = pystr.take n s ++ cut.
Proof.
  revert n. induction s as [ | c r IH]; intros n; [now exists "" | ].
  cbn [pystr.take].
  destruct (pystr.is_continuation c).
  - destruct (IH n) as [cut E]. exists cut. cbn [append]. now f_equal.
  - destruct n as [ | n]; [now exists (String c r) | ].
    destruct (IH n) as [cut E]. exists cut. cbn [append]. now f_equal.
Qed.

(** The slice counts characters, not bytes: 150 accented letters, which
    take 300 bytes, are kept whole by [[:200]]. *)
Lemma take_counts_characters :
  pystr.take 200 (repeated e_acute 150) = repeated e_acute 150
  /\ pystr.len (repeated e_acute 150) = 150%nat
  /\ String.length (repeated e_acute 150) = 300%nat
  /\ pystr.len (pystr.take 200 (repeated e_acute 250)) = 200%nat
  /\ pystr.take 200 (repeated e_acute 250) = repeated e_acute 200.
Proof. repeat split; vm_compute; reflexivity. Qed.

(** X13.  When the rates provider answers with a status other than 200,
    the result is the error that names the status and quotes the body of the
    answer, cut to its first 200 characters (code points, whatever the
    number of bytes each takes): the whole body where it has no more than
    200 of them; the body is not parsed. *)
Theorem exchange_rates_status_error
    (w : World) (currency_code api_key : string) (resp : Response) :
  getenv w "CURRENCY_API_KEY" = Some api_key ->
  api_key <> "" ->
  requests_get w currency_tool.currencyapi_url
    (currency_tool.currencyapi_params api_key
       (pystr.upper (pystr.strip currency_code))) = Responds resp ->
  status_code resp <> 200 ->
  exists quoted,
    result_of (currency_tool.get_exchange_rates_for_currency w currency_code)
    = Returned
        (rates_error currency_code
           ("CurrencyAPI request failed with status "
            ++ pystr.of_int (status_code resp) ++ ": " ++ quoted))
    /\ quoted = pystr.take 200 (text resp)
    /\ (pystr.len quoted <= 200)%nat
    /\ pystr.len quoted = Nat.min 200 (pystr.len (text resp))
    /\ (pystr.len (text resp) <= 200 -> quoted = text resp)%nat
    /\ (exists cut, text resp = quoted ++ cut).
Proof.
  intros Hk Hne Hreq Hst.
  rewrite (exchange_rates_with_key w _ api_key Hk Hne). cbn [result_of fst].
  unfold rates_answer. rewrite Hreq. apply Z.eqb_neq in Hst. rewrite Hst.
  eexists. split; [reflexivity | ]. split; [reflexivity | ].
  split; [rewrite take_len; apply Nat.le_min_l | ].
  split; [apply take_len | ].
  split; [apply take_whole | apply take_prefix].
Qed.

(** The theorem at an answer of status 429 whose body is 150 accented
    letters: 300 bytes, quoted whole. *)
Lemma exchange_rates_status_error_witness :
  exists quoted,
    result_of (currency_tool.get_exchange_rates_for_currency
                 (world_rates_status 429 (repeated e_acute 150)) "usd")
    = Returned
        (rates_error "usd"
           ("CurrencyAPI request failed with status "
            ++ pystr.of_int 429 ++ ": " ++ quoted))
    /\ quoted = pystr.take 200 (repeated e_acute 150)
    /\ (pystr.len quoted <= 200)%nat
    /\ pystr.len quoted = Nat.min 200 (pystr.len (repeated e_acute 150))
    /\ (pystr.len (repeated e_acute 150) <= 200
        -> quoted = repeated e_acute 150)%nat
    /\ (exists cut, repeated e_acute 150 = quoted ++ cut).
Proof.
  apply (exchange_rates_status_error
           (world_rates_status 429 (repeated e_acute 150))
           "usd" "secret"
           {| status_code := 429; text := repeated e_acute 150;
              json := Raised (Exn ValueError "Expecting value") |}).
  - reflexivity.
  - intros H. discriminate H.
  - reflexivity.
  - intros H. discriminate H.
Defined.

Lemma keys_app_single (d : dict) k v :
  pydict.keys (d ++ [(k, v)])%list = (pydict.keys d ++ [k])%list.
Proof. unfold pydict.keys. now rewrite map_app. Qed.

(** The keys the loop adds are the codes that gave a rate, in the order of
    the codes. *)
Lemma collect_rates_keys w data codes : forall rates rates',
  NoDup codes ->
  (forall c, In c codes -> pydict.has c rates = false) ->
  result_of (currency_tool.collect_rates w data codes rates) = Returned rates' ->
  pydict.keys rates'
  = (pydict.keys rates
     ++ filter (fun c => match classify_entry w data c with
                         | Rate _ => true
                         | _ => false
                         end) codes)%list.
Proof.
  induction codes as [ | code rest IH]; intros rates rates' Hnd Hfresh H.
  - inversion H. cbn. now rewrite app_nil_r.
  - inversion Hnd as [ | ? ? Hnotin Hnd']; subst.
    rewrite collect_rates_step in H. cbn [filter].
    destruct (classify_entry w data code) as [ | | rate | e] eqn:Ec;
      try discriminate.
    + apply IH; auto. intros c Hc. apply Hfresh. now right.
    + apply IH; auto. intros c Hc. apply Hfresh. now right.
    + rewrite set_fresh in H by (apply Hfresh; now left).
      assert (Hfresh' : forall c, In c rest ->
                pydict.has c (rates ++ [(code, PFloat rate)])%list = false).
      { intros c Hc. rewrite has_app_single, Hfresh by now right.
        simpl. apply String.eqb_neq. intros ->. contradiction. }
      rewrite (IH _ _ Hnd' Hfresh' H).
      rewrite keys_app_single, <- app_assoc. reflexivity.
Qed.

Lemma collect_rates_keys_from_empty w data codes rates' :
  NoDup codes ->
  result_of (currency_tool.collect_rates w data codes []) = Returned rates' ->
  pydict.keys rates'
  = filter (fun c => match classify_entry w data c with
                     | Rate _ => true
                     | _ => false
                     end) codes.
Proof.
  intros Hnd H.
  exact (collect_rates_keys w data codes [] rates' Hnd (fun _ _ => eq_refl) H).
Qed.

(** X14.  When the result carries [rates], its keys are the target codes
    present in it, each once and in the order USD, INR, GBP, EUR, whatever
    the order of the provider's answer. *)
Theorem rates_keys_in_target_order
    (w : World) (currency_code : string) (info rates : dict) :
  result_of (currency_tool.get_exchange_rates_for_currency w currency_code)
  = Returned info ->
  pydict.get "rates" info = Some (PDict rates) ->
  pydict.keys rates
  = filter (fun code => pydict.has code rates) ["USD"; "INR"; "GBP"; "EUR"]
  /\ NoDup (pydict.keys rates)
  /\ rates <> [].
Proof.
  intros Hres Hrates.
  destruct (rates_present_inv _ _ _ _ Hres Hrates)
    as (api_key & resp & payload & entry & rest
        & _ & _ & _ & _ & _ & Hpay & Heq).
  inversion Heq; subst rates. clear Heq.
  unfold rates_of_payload in Hpay. rewrite result_of_bind in Hpay.
  destruct payload as [ | | | | | | payload]; try discriminate.
  cbn [py.get ret result_of fst] in Hpay.
  apply collect_rates_keys_from_empty in Hpay;
    [ | apply target_currencies_nodup].
  assert (Hnd : NoDup (pydict.keys (entry :: rest))).
  { rewrite Hpay. apply NoDup_filter, target_currencies_nodup. }
  split; [ | split; [exact Hnd | discriminate]].
  rewrite Hpay at 1. apply filter_ext_in. intros c Hc.
  destruct (pydict.has c (entry :: rest)) eqn:Eh.
  - apply has_in_keys in Eh. rewrite Hpay in Eh.
    apply filter_In in Eh as [_ Eh]. exact Eh.
  - destruct (match classify_entry w _ c with Rate _ => true | _ => false end)
      eqn:Er; [ | reflexivity].
    assert (Hin : In c (pydict.keys (entry :: rest))).
    { rewrite Hpay. apply filter_In. split; [exact Hc | exact Er]. }
    apply has_in_keys in Hin. congruence.
Qed.

(** The theorem at an answer that lists GBP, INR, USD in that order. *)
Lemma rates_keys_in_target_order_witness :
  result_of (currency_tool.get_exchange_rates_for_currency
               (world_with_rates data_partial) "inr")
  = Returned
      (rates_success "inr"
         [("USD", PFloat 1.5%float); ("INR", PFloat 83.5%float)])
  /\ pydict.keys [("USD", PFloat 1.5%float); ("INR", PFloat 83.5%float)]
     = filter (fun code =>
                 pydict.has code
                   [("USD", PFloat 1.5%float); ("INR", PFloat 83.5%float)])
         ["USD"; "INR"; "GBP"; "EUR"].
Proof.
  split; [reflexivity | ].
  apply (rates_keys_in_target_order (world_with_rates data_partial) "inr"
           (rates_success "inr"
              [("USD", PFloat 1.5%float); ("INR", PFloat 83.5%float)])).
  - reflexivity.
  - reflexivity.
Defined.

(** ** Further properties: the link builder *)

Lemma contains_space_cons c r :
  pystr.contains " " (String c r) = Ascii.eqb c " " || pystr.contains " " r.
Proof.
  unfold pystr.contains. cbn [index prefix].
  destruct (ascii_dec " " c) as [<- | Hne].
  - destruct r; reflexivity.
  - assert (E : Ascii.eqb c " " = false)
      by (apply Ascii.eqb_neq; congruence).
    rewrite E. cbn [orb]. destruct (index 0 " " r); reflexivity.
Qed.

Lemma contains_char_in_space c :
  pystr.contains (String c "") " " = Ascii.eqb c " ".
Proof.
  unfold pystr.contains. cbn [index prefix].
  destruct (ascii_dec c " ") as [-> | Hne]; [reflexivity | ].
  symmetry. now apply Ascii.eqb_neq.
Qed.

Lemma space_is_not_safe c :
  urllib_parse.always_safe c = true -> Ascii.eqb c " " = false.
Proof.
  intros H. destruct (Ascii.eqb c " ") eqn:E; [ | reflexivity].
  apply Ascii.eqb_eq in E. subst. discriminate.
Qed.

Lemma replace_space_plus_app s t :
  urllib_parse.replace_space_plus (s ++ t)
  = urllib_parse.replace_space_plus s ++ urllib_parse.replace_space_plus t.
Proof. induction s as [ | c r IH]; cbn; [reflexivity | now rewrite IH]. Qed.

Lemma replace_space_plus_percent c :
  urllib_parse.replace_space_plus (urllib_parse.percent c)
  = urllib_parse.percent c.
Proof. destruct c as [[] [] [] [] [] [] [] []]; reflexivity. Qed.

(** With or without a space in it, a string is encoded character by
    character. *)
Lemma quote_with_space_safe s :
  urllib_parse.replace_space_plus (urllib_parse.quote s " ")
  = quote_plus_chars s.
Proof.
  induction s as [ | c r IH]; [reflexivity | ].
  cbn [urllib_parse.quote quote_plus_chars].
  rewrite replace_space_plus_app, IH. f_equal.
  unfold quote_plus_char. rewrite contains_char_in_space.
  destruct (urllib_parse.always_safe c) eqn:Es.
  - cbn [orb urllib_parse.replace_space_plus].
    now rewrite (space_is_not_safe c Es).
  - cbn [orb]. destruct (Ascii.eqb c " ") eqn:E.
    + apply Ascii.eqb_eq in E. subst. reflexivity.
    + apply replace_space_plus_percent.
Qed.

Lemma quote_without_space s :
  pystr.contains " " s = false -> urllib_parse.quote s "" = quote_plus_chars s.
Proof.
  induction s as [ | c r IH]; [reflexivity | ].
  rewrite contains_space_cons. intros H.
  apply orb_false_iff in H as [Hc Hr].
  cbn [urllib_parse.quote quote_plus_chars]. rewrite (IH Hr). f_equal.
  unfold quote_plus_char. rewrite Hc.
  replace (pystr.contains (String c "") "") with false
    by (unfold pystr.contains; reflexivity).
  now rewrite orb_false_r.
Qed.

Lemma quote_plus_by_chars s : urllib_parse.quote_plus s = quote_plus_chars s.
Proof.
  unfold urllib_parse.quote_plus.
  destruct (pystr.contains " " s) eqn:E; cbn [negb].
  - apply quote_with_space_safe.
  - now apply quote_without_space.
Qed.

Lemma unquote_plus_char c r :
  unquote_plus (quote_plus_char c ++ r) = String c (unquote_plus r).
Proof. destruct c as [[] [] [] [] [] [] [] []]; reflexivity. Qed.

Lemma unquote_quote_plus s : unquote_plus (urllib_parse.quote_plus s) = s.
Proof.
  rewrite quote_plus_by_chars.
  induction s as [ | c r IH]; [reflexivity | ].
  cbn [quote_plus_chars]. now rewrite unquote_plus_char, IH.
Qed.

Lemma string_forall_app p s t :
  string_forall p (s ++ t) = string_forall p s && string_forall p t.
Proof.
  induction s as [ | c r IH]; [reflexivity | ].
  cbn [append string_forall]. now rewrite IH, andb_assoc.
Qed.

Lemma query_char_quote_plus_char c :
  string_forall query_char (quote_plus_char c) = true.
Proof. destruct c as [[] [] [] [] [] [] [] []]; reflexivity. Qed.

(** X15.  The link is the fixed address of the map search followed by a
    query in which only letters, digits, [_ . - ~ + %] occur: no space, no
    [&], [=], [#], [?] or [/] of the address can end or split the query.
    Read back ([+] as a space, [%XY] as a byte), the query is the address
    without its surrounding whitespace. *)
Theorem maps_link_query_is_safe (address : string) :
  exists query,
    maps_tool.get_google_maps_link_for_address address
    = (Returned ("https://www.google.com/maps/search/?api=1&query=" ++ query),
       [Enter "get_google_maps_link_for_address" address])
    /\ string_forall query_char query = true
    /\ unquote_plus query = pystr.strip address.
Proof.
  exists (urllib_parse.quote_plus (pystr.strip address)).
  split; [reflexivity | ]. split; [ | apply unquote_quote_plus].
  rewrite quote_plus_by_chars.
  induction (pystr.strip address) as [ | c r IH]; [reflexivity | ].
  cbn [quote_plus_chars]. now rewrite string_forall_app, query_char_quote_plus_char.
Qed.

(** X16.  Two addresses get the same link exactly when they are equal up to
    surrounding whitespace. *)
Theorem maps_links_equal_iff (address other : string) :
  result_of (maps_tool.get_google_maps_link_for_address address)
  = result_of (maps_tool.get_google_maps_link_for_address other)
  <-> pystr.strip address = pystr.strip other.
Proof.
  rewrite !maps_link_run. cbn [result_of fst]. unfold maps_link. split.
  - intros H. inversion H as [Hq].
    rewrite <- (unquote_quote_plus (pystr.strip address)).
    rewrite <- (unquote_quote_plus (pystr.strip other)).
    now rewrite Hq.
  - intros ->. reflexivity.
Qed.

(** ** Further properties: the aggregator *)

Lemma configured_in_catalog country ex :
  In ex (configured_exchanges country) ->
  exists key exchanges,
    In (key, exchanges) stock_tool.COUNTRY_STOCK_PROFILE /\ In ex exchanges.
Proof.
  unfold configured_exchanges.
  destruct (pydict.get _ stock_tool.COUNTRY_STOCK_PROFILE) as [l | ] eqn:E;
    [ | intros []].
  intros H. apply get_in in E. eexists. exists l. split; eassumption.
Qed.

(** Every exchange of the catalog has an address. *)
Lemma configured_address country ex :
  In ex (configured_exchanges country) ->
  String.eqb (StockExchange.headquarters_address ex) "" = false.
Proof.
  intros H. apply configured_in_catalog in H as (key & l & Hl & Hex).
  cbn in Hl.
  repeat (destruct Hl as [Hl | Hl];
          [inversion Hl; subst; cbn in Hex;
           repeat (destruct Hex as [<- | Hex]; [reflexivity | ]);
           destruct Hex | ]).
  destruct Hl.
Qed.

Lemma currency_country_field w country info t :
  currency_tool.get_currency_for_country w country = (Returned info, t) ->
  pydict.get "country" info = Some (PStr (pystr.strip country)).
Proof.
  destruct (pydict.get (currency_tool._normalize_country country)
              currency_tool.COUNTRY_CURRENCY_MAP) as [mapping | ] eqn:E.
  - rewrite (currency_local_result w country mapping E).
    intros H. inversion H. reflexivity.
  - destruct (currency_remote_shape w country E) as (info' & -> & Hshape).
    intros H. inversion H; subst.
    destruct Hshape as [(m & ->) | (nm & code & ->)]; reflexivity.
Qed.

(** X17.  The profile has six fields, in a fixed order.  Its [country], the
    [country] of its [currency] and the [country] of its [stocks] are all
    the trimmed input.  Without exchanges the address and the link are both
    [None] and [stocks] has an [error]; with exchanges, [stocks] has no
    [error], the address is the headquarters address of the first exchange
    and the link is the link to that address. *)
Theorem profile_fields_agree (w : World) (country : string) :
  exists profile currency_info stocks,
    result_of (agent.build_country_financial_profile w country) = Returned profile
    /\ pydict.keys profile
       = [ "country"; "currency"; "exchange_rates"; "stocks";
           "main_exchange_hq_address"; "google_maps_link" ]
    /\ pydict.get "country" profile = Some (PStr (pystr.strip country))
    /\ pydict.get "currency" profile = Some (PDict currency_info)
    /\ pydict.get "country" currency_info = Some (PStr (pystr.strip country))
    /\ pydict.get "stocks" profile = Some (PDict stocks)
    /\ pydict.get "country" stocks = Some (PStr (pystr.strip country))
    /\ match configured_exchanges (pystr.strip country) with
       | [] =>
           pydict.has "error" stocks = true
           /\ pydict.get "main_exchange_hq_address" profile = Some PNone
           /\ pydict.get "google_maps_link" profile = Some PNone
       | first :: _ =>
           pydict.has "error" stocks = false
           /\ pydict.get "main_exchange_hq_address" profile
              = Some (PStr (StockExchange.headquarters_address first))
           /\ pydict.get "google_maps_link" profile
              = Some (PStr (maps_link (StockExchange.headquarters_address first)))
       end.
Proof.
  destruct (build_run w country)
    as (info & fx & t1 & t2 & Ecur & _ & _ & Erun).
  rewrite Erun. cbn [result_of fst].
  exists (profile_value w (pystr.strip country) info fx), info,
    (stock_profile_value w (pystr.strip country)).
  split; [reflexivity | ]. split; [reflexivity | ]. split; [reflexivity | ].
  split; [reflexivity | ].
  split; [rewrite (currency_country_field _ _ _ _ Ecur);
          now rewrite strip_idempotent | ].
  split; [reflexivity | ].
  split.
  { unfold stock_profile_value.
    destruct (configured_exchanges (pystr.strip country));
      cbn; now rewrite strip_idempotent. }
  unfold profile_value, stock_profile_value, main_hq_address, google_maps_link.
  pose proof (configured_address (pystr.strip country)) as Haddr.
  destruct (configured_exchanges (pystr.strip country)) as [ | first rest].
  - repeat split.
  - rewrite (Haddr first (or_introl eq_refl)). repeat split.
Qed.

Lemma filter_none {A} (p : A -> bool) l :
  (forall x, In x l -> p x = false) -> filter p l = [].
Proof.
  induction l as [ | a l IH]; [reflexivity | ]. intros H. cbn.
  rewrite (H a (or_introl eq_refl)). apply IH. intros x Hx. apply H. now right.
Qed.

Lemma stock_and_link_no_http country ev :
  In ev (stock_and_link_trace country) -> is_http ev = false.
Proof.
  unfold stock_and_link_trace. intros [<- | H]; [reflexivity | ].
  apply in_app_iff in H as [H | H].
  - apply history_requests_are_history in H as [s ->]. reflexivity.
  - destruct (configured_exchanges country) as [ | ex rest]; [destruct H | ].
    destruct (String.eqb _ _); [destruct H | ].
    destruct H as [<- | []]. reflexivity.
Qed.

(** X18.  [build_country_financial_profile] calls its components in a fixed
    order, each on the trimmed input: the currency resolver; the rate
    fetcher, when there is a currency code; the stock profile, whatever the
    first two gave; and the link builder, when there is an exchange. *)
Theorem build_calls_in_order (w : World) (country : string) :
  exists currency_info,
    result_of (currency_tool.get_currency_for_country w (pystr.strip country))
    = Returned currency_info
    /\ trace_of (agent.build_country_financial_profile w country)
       = (trace_of (currency_tool.get_currency_for_country w
                      (pystr.strip country))
          ++ match pydict.get "currency_code" currency_info with
             | Some (PStr code) =>
                 trace_of (currency_tool.get_exchange_rates_for_currency w code)
             | _ => []
             end
          ++ trace_of (stock_tool.get_country_stock_profile w
                         (pystr.strip country))
          ++ match configured_exchanges (pystr.strip country) with
             | [] => []
             | first :: _ =>
                 [Enter "get_google_maps_link_for_address"
                    (StockExchange.headquarters_address first)]
             end)%list.
Proof.
  destruct (build_run w country)
    as (info & fx & t1 & t2 & Ecur & Hfx & _ & Erun).
  exists info. rewrite Erun, Ecur, stock_profile_run.
  cbn [result_of trace_of fst snd]. split; [reflexivity | ].
  f_equal. f_equal.
  - destruct (pydict.get "currency_code" info) as [v | ].
    + destruct Hfx as (code & -> & ->). reflexivity.
    + now destruct Hfx.
  - unfold stock_and_link_trace.
    pose proof (configured_address (pystr.strip country)) as Haddr.
    destruct (configured_exchanges (pystr.strip country)) as [ | first rest];
      [reflexivity | ].
    now rewrite (Haddr first (or_introl eq_refl)).
Qed.

(** X19.  For a country that has exchanges, England apart, the static
    currency table knows the country too: the profile is built without any
    request to the country provider, and the only HTTP request that can be
    sent is the one to the rates provider. *)
Theorem supported_countries_need_no_lookup (w : World) (country : string) :
  In (stock_tool._normalize_country country) supported_countries ->
  stock_tool._normalize_country country <> "england" ->
  exists mapping,
    pydict.get (currency_tool._normalize_country country)
      currency_tool.COUNTRY_CURRENCY_MAP = Some mapping
    /\ result_of (currency_tool.get_currency_for_country w (pystr.strip country))
       = Returned (local_currency_info (pystr.strip country) mapping)
    /\ filter is_country_request
         (trace_of (agent.build_country_financial_profile w country)) = []
    /\ forall url params,
         In (HttpGet url params)
            (trace_of (agent.build_country_financial_profile w country)) ->
         url = currency_tool.currencyapi_url.
Proof.
  intros Hin Hne.
  assert (Hmap : exists mapping,
             pydict.get (currency_tool._normalize_country country)
               currency_tool.COUNTRY_CURRENCY_MAP = Some mapping).
  { change (currency_tool._normalize_country country)
      with (stock_tool._normalize_country country).
    remember (stock_tool._normalize_country country) as norm eqn:En.
    clear En. unfold supported_countries in Hin. cbn [In] in Hin.
    repeat (destruct Hin as [<- | Hin];
            [(eexists; reflexivity) || (exfalso; now apply Hne) | ]).
    destruct Hin. }
  destruct Hmap as (mapping & Hmap). exists mapping.
  split; [exact Hmap | ].
  assert (Hlocal := currency_local_result w (pystr.strip country) mapping).
  change (currency_tool._normalize_country (pystr.strip country))
    with (stock_tool._normalize_country (pystr.strip country)) in Hlocal.
  rewrite normalize_strip in Hlocal. specialize (Hlocal Hmap).
  split; [now rewrite Hlocal | ].
  destruct (build_run w country)
    as (info & fx & t1 & t2 & Ecur & Hfx & _ & Erun).
  rewrite Hlocal in Ecur. inversion Ecur; subst info t1. clear Ecur.
  rewrite Erun. cbn [trace_of snd].
  assert (Ht2 : forall ev, In ev t2 ->
            is_http ev = false \/ exists params,
              ev = HttpGet currency_tool.currencyapi_url params).
  { change (pydict.get "currency_code" (local_currency_info _ mapping))
      with (Some (PStr (currency_tool.code mapping))) in Hfx.
    cbv iota in Hfx. destruct Hfx as (code & Hc & Efx).
    destruct (getenv w "CURRENCY_API_KEY") as [api_key | ] eqn:Ek.
    - destruct (string_dec api_key "") as [-> | Hk].
      + rewrite exchange_rates_without_key in Efx by now right.
        inversion Efx; subst. intros ev [<- | []]. now left.
      + rewrite (exchange_rates_with_key w _ api_key Ek Hk) in Efx.
        inversion Efx; subst. intros ev [<- | [<- | []]]; [now left | right].
        now eexists.
    - rewrite exchange_rates_without_key in Efx by now left.
      inversion Efx; subst. intros ev [<- | []]. now left. }
  split.
  - apply filter_none. intros ev Hev.
    cbn [app] in Hev. destruct Hev as [<- | Hev]; [reflexivity | ].
    apply in_app_iff in Hev as [Hev | Hev].
    + destruct (Ht2 ev Hev) as [H | (params & ->)]; [ | reflexivity].
      destruct ev; try reflexivity. discriminate.
    + apply stock_and_link_no_http in Hev.
      destruct ev; try reflexivity. discriminate.
  - intros url params Hev.
    cbn [app] in Hev. destruct Hev as [Hev | Hev]; [discriminate | ].
    apply in_app_iff in Hev as [Hev | Hev].
    + destruct (Ht2 _ Hev) as [H | (params' & H)]; [discriminate | ].
      now inversion H.
    + apply stock_and_link_no_http in Hev. discriminate.
Qed.

(** The theorem at " Japan ". *)
Lemma supported_countries_need_no_lookup_witness :
  exists mapping,
    pydict.get (currency_tool._normalize_country " Japan ")
      currency_tool.COUNTRY_CURRENCY_MAP = Some mapping
    /\ result_of (currency_tool.get_currency_for_country
                    (world_with_rates data_complete) (pystr.strip " Japan "))
       = Returned (local_currency_info (pystr.strip " Japan ") mapping)
    /\ filter is_country_request
         (trace_of (agent.build_country_financial_profile
                      (world_with_rates data_complete) " Japan ")) = []
    /\ forall url params,
         In (HttpGet url params)
            (trace_of (agent.build_country_financial_profile
                         (world_with_rates data_complete) " Japan ")) ->
         url = currency_tool.currencyapi_url.
Proof.
  apply (supported_countries_need_no_lookup
           (world_with_rates data_complete) " Japan ").
  - cbn. tauto.
  - discriminate.
Defined.

(** X20.  Whitespace around the input changes nothing: the profile and the
    calls made are those of the input without it. *)
Theorem build_ignores_padding (w : World) (country left right : string) :
  all_space left = true ->
  all_space right = true ->
  agent.build_country_financial_profile w (left ++ country ++ right)
  = agent.build_country_financial_profile w country.
Proof.
  intros Hl Hr. unfold agent.build_country_financial_profile. cbv zeta.
  now rewrite (strip_padding left country right Hl Hr).
Qed.

(** The theorem at a tab, "India" and two spaces. *)
Lemma build_ignores_padding_witness :
  agent.build_country_financial_profile world_offline
    (String (ascii_of_N 9) "" ++ "India" ++ "  ")
  = agent.build_country_financial_profile world_offline "India".
Proof.
  apply (build_ignores_padding world_offline "India"
           (String (ascii_of_N 9) "") "  "); reflexivity.
Defined.

(** ** Further properties: the choice of the chat model *)

Lemma selected_provider_eq w provider :
  match provider with
  | Some p =>
      if truthy (PStr p) then p
      else pystr.lower (agent.getenv_or w "LLM_PROVIDER" "gemini")
  | None => pystr.lower (agent.getenv_or w "LLM_PROVIDER" "gemini")
  end = selected_provider w provider.
Proof. destruct provider as [[ | c p] | ]; reflexivity. Qed.

(** X21.  [_get_llm] returns a chat model only for one of the four provider
    names in lower case, when the package of that provider is installed and
    the variable for its key is set and not empty; the model carries that
    key and the temperature 0.2.  In every other case it raises. *)
Theorem llm_needs_provider_package_and_key
    (w : World) (installed : Installed) (provider : option string)
    (client : chat_model) :
  result_of (agent._get_llm w installed provider) = Returned client ->
  In (selected_provider w provider) ["gemini"; "deepseek"; "llama3"; "mistral"]
  /\ package_installed installed (selected_provider w provider) = true
  /\ exists variable key,
       key_variable (selected_provider w provider) = Some variable
       /\ getenv w variable = Some key
       /\ key <> ""
       /\ api_key_of client = key
       /\ temperature_of client = temperature_0_2.
Proof.
  unfold agent._get_llm. cbv zeta. rewrite selected_provider_eq.
  unfold package_installed, key_variable.
  set (p := selected_provider w provider).
  destruct (String.eqb p "gemini") eqn:E1.
  { apply String.eqb_eq in E1. rewrite E1.
    destruct (langchain_google_genai installed); [ | discriminate].
    destruct (getenv w "GOOGLE_API_KEY") as [[ | c k] | ] eqn:Ek;
      try discriminate.
    intros H. inversion H; subst.
    split; [cbn; tauto | ]. split; [reflexivity | ].
    exists "GOOGLE_API_KEY", (String c k). repeat split; try assumption.
    discriminate. }
  destruct (langchain_openai installed); [ | discriminate]. cbn [negb].
  destruct (String.eqb p "deepseek") eqn:E2.
  { apply String.eqb_eq in E2. rewrite E2.
    destruct (getenv w "DEEPSEEK_API_KEY") as [[ | c k] | ] eqn:Ek;
      try discriminate.
    intros H. inversion H; subst.
    split; [cbn; tauto | ]. split; [reflexivity | ].
    exists "DEEPSEEK_API_KEY", (String c k). repeat split; try assumption.
    discriminate. }
  destruct (String.eqb p "llama3") eqn:E3.
  { apply String.eqb_eq in E3. rewrite E3.
    destruct (getenv w "GROQ_API_KEY") as [[ | c k] | ] eqn:Ek;
      try discriminate.
    intros H. inversion H; subst.
    split; [cbn; tauto | ]. split; [reflexivity | ].
    exists "GROQ_API_KEY", (String c k). repeat split; try assumption.
    discriminate. }
  destruct (String.eqb p "mistral") eqn:E4; [ | discriminate].
  apply String.eqb_eq in E4. rewrite E4.
  destruct (getenv w "MISTRAL_API_KEY") as [[ | c k] | ] eqn:Ek;
    try discriminate.
  intros H. inversion H; subst.
  split; [cbn; tauto | ]. split; [reflexivity | ].
  exists "MISTRAL_API_KEY", (String c k). repeat split; try assumption.
  discriminate.
Qed.

(** The theorem for Mistral, chosen by the environment. *)
Lemma llm_needs_provider_package_and_key_witness :
  result_of (agent._get_llm
               (world_with_env [ ("LLM_PROVIDER", "Mistral");
                                 ("MISTRAL_API_KEY", "k-123") ])
               all_installed None)
  = Returned (ChatOpenAI "mistral-large-latest" "k-123"
                "https://api.mistral.ai/v1" temperature_0_2)
  /\ api_key_of (ChatOpenAI "mistral-large-latest" "k-123"
                   "https://api.mistral.ai/v1" temperature_0_2) = "k-123".
Proof.
  split; [reflexivity | ].
  destruct (llm_needs_provider_package_and_key
              (world_with_env [ ("LLM_PROVIDER", "Mistral");
                                ("MISTRAL_API_KEY", "k-123") ])
              all_installed None
              (ChatOpenAI "mistral-large-latest" "k-123"
                 "https://api.mistral.ai/v1" temperature_0_2)
              eq_refl) as (_ & _ & variable & key & _ & _ & _ & H & _).
  reflexivity.
Defined.

(** X22.  A provider named in the call overrides the environment: with a
    name that is not empty, [LLM_PROVIDER] is not consulted, so two
    environments that differ in it alone give the same outcome. *)
Theorem llm_argument_overrides_environment
    (w w' : World) (installed : Installed) (provider : string) :
  provider <> "" ->
  (forall name, name <> "LLM_PROVIDER" -> getenv w name = getenv w' name) ->
  agent._get_llm w installed (Some provider)
  = agent._get_llm w' installed (Some provider).
Proof.
  intros Hne Hsame. unfold agent._get_llm, agent.getenv_or. cbv zeta.
  destruct provider as [ | c p]; [congruence | ]. cbn [truthy String.eqb negb].
  rewrite !(Hsame "GOOGLE_API_KEY"), !(Hsame "GEMINI_MODEL_NAME"),
    !(Hsame "DEEPSEEK_API_KEY"), !(Hsame "DEEPSEEK_BASE_URL"),
    !(Hsame "DEEPSEEK_MODEL_NAME"), !(Hsame "GROQ_API_KEY"),
    !(Hsame "GROQ_BASE_URL"), !(Hsame "LLAMA3_MODEL_NAME"),
    !(Hsame "MISTRAL_API_KEY"), !(Hsame "MISTRAL_BASE_URL"),
    !(Hsame "MISTRAL_MODEL_NAME") by discriminate.
  reflexivity.
Qed.

(** The theorem for "deepseek" against an environment that names Gemini. *)
Lemma llm_argument_overrides_environment_witness :
  agent._get_llm
    (world_with_env [("LLM_PROVIDER", "gemini"); ("DEEPSEEK_API_KEY", "d-1")])
    all_installed (Some "deepseek")
  = agent._get_llm
      (world_with_env [("DEEPSEEK_API_KEY", "d-1")])
      all_installed (Some "deepseek").
Proof.
  apply (llm_argument_overrides_environment
           (world_with_env [("LLM_PROVIDER", "gemini"); ("DEEPSEEK_API_KEY", "d-1")])
           (world_with_env [("DEEPSEEK_API_KEY", "d-1")])
           all_installed "deepseek").
  - discriminate.
  - intros name Hname. cbn [world_with_env getenv pydict.get].
    destruct (String.eqb name "LLM_PROVIDER") eqn:E; [ | reflexivity].
    apply String.eqb_eq in E. contradiction.
Defined.

(** X23.  Without the package [langchain-openai], every provider other
    than "gemini" ends in the RuntimeError that asks for the package,
    whatever keys are set and even when the name is no provider at all: the
    name is examined only after the package. *)
Theorem llm_without_openai_package
    (w : World) (installed : Installed) (provider : option string) :
  langchain_openai installed = false ->
  selected_provider w provider <> "gemini" ->
  agent._get_llm w installed provider
  = raise (Exn (OtherException "RuntimeError")
             "langchain-openai is not installed. Install it or use provider=gemini.").
Proof.
  intros Hpkg Hp. unfold agent._get_llm. cbv zeta.
  rewrite selected_provider_eq. apply String.eqb_neq in Hp.
  rewrite Hp, Hpkg. reflexivity.
Qed.

(** The theorem at a name that is no provider. *)
Lemma llm_without_openai_package_witness :
  agent._get_llm (world_with_env [("OPENAI_API_KEY", "sk")])
    {| langchain_google_genai := true; langchain_openai := false |}
    (Some "openai")
  = raise (Exn (OtherException "RuntimeError")
             "langchain-openai is not installed. Install it or use provider=gemini.").
Proof.
  apply (llm_without_openai_package (world_with_env [("OPENAI_API_KEY", "sk")])
           {| langchain_google_genai := true; langchain_openai := false |}
           (Some "openai")).
  - reflexivity.
  - discriminate.
Defined.

(** X24.  With [langchain-openai] installed, a name that is none of the
    four providers ends in the ValueError that quotes the name as it was
    selected.  A name given in the call is compared as it is, upper case
    included. *)
Theorem llm_unsupported_provider
    (w : World) (installed : Installed) (provider : option string) :
  langchain_openai installed = true ->
  ~ In (selected_provider w provider) ["gemini"; "deepseek"; "llama3"; "mistral"] ->
  agent._get_llm w installed provider
  = raise (Exn ValueError
             ("Unsupported LLM provider: " ++ selected_provider w provider)).
Proof.
  intros Hpkg Hp.
  unfold agent._get_llm. cbv zeta. rewrite selected_provider_eq, Hpkg.
  assert (Hno : forall name,
            In name ["gemini"; "deepseek"; "llama3"; "mistral"] ->
            selected_provider w provider <> name)
    by (intros name Hname E; apply Hp; now rewrite E).
  destruct (String.eqb_spec (selected_provider w provider) "gemini") as [e | _];
    [exfalso; apply (Hno "gemini"); [cbn; tauto | exact e] | ].
  destruct (String.eqb_spec (selected_provider w provider) "deepseek") as [e | _];
    [exfalso; apply (Hno "deepseek"); [cbn; tauto | exact e] | ].
  destruct (String.eqb_spec (selected_provider w provider) "llama3") as [e | _];
    [exfalso; apply (Hno "llama3"); [cbn; tauto | exact e] | ].
  destruct (String.eqb_spec (selected_provider w provider) "mistral") as [e | _];
    [exfalso; apply (Hno "mistral"); [cbn; tauto | exact e] | ].
  reflexivity.
Qed.

(** The theorem at "Gemini" given in the call. *)
Lemma llm_unsupported_provider_witness :
  agent._get_llm (world_with_env [("GOOGLE_API_KEY", "g-1")]) all_installed
    (Some "Gemini")
  = raise (Exn ValueError "Unsupported LLM provider: Gemini").
Proof.
  apply (llm_unsupported_provider (world_with_env [("GOOGLE_API_KEY", "g-1")])
           all_installed (Some "Gemini")).
  - reflexivity.
  - cbn. intros [H | [H | [H | [H | []]]]]; discriminate.
Defined.
